(** * gcdataproc: an Ansible module that creates or destroys Google Cloud
    Dataproc clusters.

    A shallow embedding of [src/cloud/google/gcdataproc.py] and the
    properties of its request-body builder and of its reconciliation
    procedure ([main]).

    - Python values are an inductive type [value]; dictionaries are
      stdpp [gmap]s keyed by strings.
    - A Python exception is a constructor of [exn]; a computation that can
      raise returns a [result].
    - Calls that leave the process (credentials file, service discovery,
      the three cluster endpoints, [time.sleep]) are recorded in a
      chronological history; what the outside world answers is an oracle
      that sees the history so far and the call being made. *)

From stdpp Require Import gmap strings list fin_maps.
From Stdlib Require Import ZArith Lia Ascii.

Set Warnings "-register-all".
#[local] Open Scope string_scope.
#[local] Open Scope list_scope.

(** ** Python values *)

Inductive value : Type :=
| VNone
| VBool (b : bool)
| VInt (n : Z)
| VStr (s : string)
| VList (l : list value)
| VDict (d : gmap string value).

(** [bool(v)], the test of [if v:] and [not v]. *)
Definition truthy (v : value) : bool :=
  match v with
  | VNone => false
  | VBool b => b
  | VInt n => negb (n =? 0)%Z
  | VStr s => negb (s =? EmptyString)
  | VList l => match l with [] => false | _ :: _ => true end
  | VDict d => negb (bool_decide (d = ∅))
  end.

(** [v == s] for a string literal [s]. *)
Definition eq_str (v : value) (s : string) : bool :=
  match v with
  | VStr x => (x =? s)
  | _ => false
  end.

(** [v in [s1, s2, ...]] for a list of string literals. *)
Definition in_strs (v : value) (l : list string) : bool :=
  existsb (eq_str v) l.

(** ** Exceptions and results *)

Inductive exn : Type :=
| HttpError (msg : string)        (* googleapiclient.errors.HttpError *)
| KeyError (key : string)
| TypeError (msg : string)
| AttributeError (msg : string)
| Exception (msg : string).       (* any other subclass of Exception *)

(** [str(e)] *)
Definition str_exn (e : exn) : string :=
  match e with
  | HttpError m => m
  | KeyError k => "'" +:+ k +:+ "'"
  | TypeError m => m
  | AttributeError m => m
  | Exception m => m
  end.

Definition is_HttpError (e : exn) : bool :=
  match e with HttpError _ => true | _ => false end.

(** The [msg] argument of [fail_json]: the module passes a string at
    lines 320, 330, 336 and 368 and the exception object at line 218. *)
Inductive message : Type :=
| msg_str (s : string)
| msg_exn (e : exn).

(** How a piece of the module can end.  [ExitJson] and [FailJson] are the
    two ways [AnsibleModule] ends the process ([sys.exit]): no [except
    Exception] clause catches them.  [Raise] is a Python exception on its
    way up; out of [main] it is an uncaught exception (a traceback, not a
    [fail_json] result).  [OutOfFuel] stands for a loop that is still
    running when the fuel of the model is spent. *)
Inductive result (A : Type) : Type :=
| Ok (a : A)
| Raise (e : exn)
| ExitJson (changed : bool) (json : gmap string value)
| FailJson (changed : option bool) (msg : message)
| OutOfFuel.
Arguments Ok {A} a.
Arguments Raise {A} e.
Arguments ExitJson {A} changed json.
Arguments FailJson {A} changed msg.
Arguments OutOfFuel {A}.

Definition result_bind {A B} (f : A → result B) (r : result A) : result B :=
  match r with
  | Ok a => f a
  | Raise e => Raise e
  | ExitJson c j => ExitJson c j
  | FailJson c m => FailJson c m
  | OutOfFuel => OutOfFuel
  end.

#[export] Instance result_mret : MRet result := @Ok.
#[export] Instance result_mbind : MBind result := @result_bind.

(** ** Dictionary and string primitives *)

(** [d.get(k)] on [module.params] and [os.environ]: [None] when absent. *)
Definition params_get (params : gmap string value) (k : string) : value :=
  default VNone (params !! k).

(** [obj[k]] *)
Definition getitem (obj : value) (k : string) : result value :=
  match obj with
  | VDict d =>
      match d !! k with
      | Some v => Ok v
      | None => Raise (KeyError k)
      end
  | _ => Raise (TypeError "object is not subscriptable by a string key")
  end.

(** [obj[k] = v] *)
Definition setitem (obj : value) (k : string) (v : value) : result value :=
  match obj with
  | VDict d => Ok (VDict (<[k := v]> d))
  | _ => Raise (TypeError "object does not support item assignment")
  end.

(** [obj[p1]...[pn][k] = v].  Python looks up [obj[p1]...[pn]] and mutates
    that dictionary in place; the dictionaries on the path are shared with
    [obj], so the update is visible from [obj].  Here the updated
    sub-dictionary is written back along the path. *)
Fixpoint setitem_at (obj : value) (path : list string) (k : string)
    (v : value) : result value :=
  match path with
  | [] => setitem obj k v
  | p :: ps =>
      sub ← getitem obj p;
      sub' ← setitem_at sub ps k v;
      setitem obj p sub'
  end.

(** [obj[p1]...[pn]] without exceptions, for statements about a body. *)
Fixpoint lookup_at (obj : value) (path : list string) : option value :=
  match path with
  | [] => Some obj
  | p :: ps =>
      match obj with
      | VDict d => d !! p ≫= λ sub, lookup_at sub ps
      | _ => None
      end
  end.

(** [s.split(sep)] for a one-character separator. *)
Fixpoint split (sep : ascii) (s : string) : list string :=
  match s with
  | EmptyString => [EmptyString]
  | String c r =>
      if Ascii.eqb c sep then EmptyString :: split sep r
      else match split sep r with
           | h :: t => String c h :: t
           | [] => [String c EmptyString]
           end
  end.

(** [v.split(',')]: only strings have the method. *)
Definition str_split_comma (v : value) : result value :=
  match v with
  | VStr s => Ok (VList (VStr <$> split "," s))
  | _ => Raise (AttributeError "object has no attribute 'split'")
  end.

Definition as_str (v : value) : result string :=
  match v with
  | VStr s => Ok s
  | _ => Raise (TypeError "expected string")
  end.

Fixpoint as_strs (l : list value) : result (list string) :=
  match l with
  | [] => Ok []
  | v :: t => s ← as_str v; r ← as_strs t; Ok (s :: r)
  end.

(** What [for x in v] enumerates. *)
Definition iterate (v : value) : result (list value) :=
  match v with
  | VList l => Ok l
  | VStr s =>
      Ok ((λ c, VStr (String c EmptyString)) <$> String.list_ascii_of_string s)
  | VDict d => Ok (VStr <$> (map_to_list d).*1)
  | _ => Raise (TypeError "object is not iterable")
  end.

(** ** The request body (lines 222-292) *)

Definition google_base_uri (project : string) : string :=
  "https://www.googleapis.com/compute/v1/projects/" +:+ project +:+ "/".

(** [generate_resource_uri(project, *args)] *)
Definition generate_resource_uri (project : string) (args : list value)
    : result string :=
  parts ← as_strs args;
  Ok (google_base_uri project +:+ String.concat "/" parts).

Definition scope_prefix : string := "https://www.googleapis.com/auth/".

(** ['https://www.googleapis.com/auth/' + scope] *)
Definition scope_uri (scope : value) : result value :=
  match scope with
  | VStr s => Ok (VStr (scope_prefix +:+ s))
  | _ => Raise (TypeError "cannot concatenate 'str' and non-str objects")
  end.

(** [[e(x) for x in l]] *)
Fixpoint comprehension (f : value → result value) (l : list value)
    : result (list value) :=
  match l with
  | [] => Ok []
  | x :: t => y ← f x; r ← comprehension f t; Ok (y :: r)
  end.

(** [populate_request_body(module, name, project, region, zone)].  Of
    [module] only [module.params] is used.  In an assignment Python
    evaluates the right-hand side before the subscripts of the target. *)
Definition populate_request_body (params : gmap string value)
    (name : value) (project : string) (region zone : value) : result value :=
  let image_version := params_get params "image_version" in
  let bucket := params_get params "bucket" in
  let network := params_get params "network" in
  let subnetwork := params_get params "subnetwork" in
  let tags := params_get params "tags" in
  let service_account_scopes := params_get params "service_account_scopes" in
  let metadata := params_get params "metadata" in
  let init_actions := params_get params "init_actions" in
  let master_config := params_get params "master_config" in
  let worker_config := params_get params "worker_config" in
  let second_worker_config := params_get params "second_worker_config" in
  zoneUri ← generate_resource_uri project [VStr "zones"; zone];
  let body :=
    VDict (<["clusterName" := name]> (<["projectId" := VStr project]>
      {["config" := VDict
          {["gceClusterConfig" := VDict {["zoneUri" := VStr zoneUri]}]}]}))
  in
  body ← (if truthy image_version then
            body ← setitem_at body ["config"] "softwareConfig" (VDict ∅);
            setitem_at body ["config"; "softwareConfig"] "imageVersion"
              image_version
          else Ok body);
  body ← (if truthy bucket then
            setitem_at body ["config"] "configBucket" bucket
          else Ok body);
  body ← (if truthy tags then
            l ← str_split_comma tags;
            setitem_at body ["config"; "gceClusterConfig"] "tags" l
          else Ok body);
  body ← (if truthy network then
            uri ← generate_resource_uri project
                    [VStr "regions"; region; network];
            setitem_at body ["config"; "gceClusterConfig"] "networkUri"
              (VStr uri)
          else Ok body);
  body ← (if truthy subnetwork then
            uri ← generate_resource_uri project
                    [VStr "regions"; region; subnetwork];
            setitem_at body ["config"; "gceClusterConfig"] "subnetworkUri"
              (VStr uri)
          else Ok body);
  body ← (if truthy service_account_scopes then
            scopes ← iterate service_account_scopes;
            uris ← comprehension scope_uri scopes;
            setitem_at body ["config"; "gceConfigCluster"]
              "serviceAccountScopes" (VList uris)
          else Ok body);
  body ← (if truthy metadata then
            setitem_at body ["config"; "gceConfigCluster"] "metadata" metadata
          else Ok body);
  body ← (if truthy init_actions then
            setitem_at body ["config"] "initializationActions" init_actions
          else Ok body);
  body ← (if truthy master_config then
            setitem_at body ["config"] "masterConfig" master_config
          else Ok body);
  body ← (if truthy worker_config then
            setitem_at body ["config"] "workerConfig" worker_config
          else Ok body);
  body ← (if truthy second_worker_config then
            setitem_at body ["config"] "secondaryWorkerConfig"
              second_worker_config
          else Ok body);
  Ok body.

(** ** The outside world *)

(** A call that leaves the process.  [clusters_get p r n] is
    [dataproc.projects().regions().clusters().get(projectId=p, region=r,
    clusterName=n).execute()], and likewise [create] and [delete]. *)
Inductive call : Type :=
| from_json_keyfile_name (cred_path : string) (scopes : list string)
| build (serviceName version : string)
| clusters_get (projectId region : string) (clusterName : value)
| clusters_create (projectId region : string) (body : value)
| clusters_delete (projectId region : string) (clusterName : value)
| sleep (secs : Z).

(** What a call comes back with: a JSON object or an exception.  For the
    credentials and for [build] the object returned is opaque to the
    module and only [Returns] against [Raises] matters. *)
Inductive response : Type :=
| Returns (json : gmap string value)
| Raises (e : exn).

(** The world answers a call knowing the calls made before it. *)
Definition world : Type := list call → call → response.

(** ** Computations of the module: a history of calls and a result *)

Definition M (A : Type) : Type := list call → result A * list call.

Definition M_ret {A} (a : A) : M A := λ h, (Ok a, h).

Definition M_bind {A B} (f : A → M B) (m : M A) : M B :=
  λ h, match m h with
       | (Ok a, h') => f a h'
       | (Raise e, h') => (Raise e, h')
       | (ExitJson c j, h') => (ExitJson c j, h')
       | (FailJson c msg, h') => (FailJson c msg, h')
       | (OutOfFuel, h') => (OutOfFuel, h')
       end.

#[export] Instance M_mret : MRet M := @M_ret.
#[export] Instance M_mbind : MBind M := @M_bind.

(** A pure computation inside the module. *)
Definition lift {A} (r : result A) : M A := λ h, (r, h).

(** [try: body / except Exception as e: handler(e)].  Only a Python
    exception raised by [body] reaches the handler; an exception raised by
    the handler itself leaves the [try] statement. *)
Definition try_except {A} (body : M A) (handler : exn → M A) : M A :=
  λ h, match body h with
       | (Raise e, h') => handler e h'
       | r => r
       end.

(** [module.fail_json(msg=..., [changed=...])] *)
Definition fail_json {A} (changed : option bool) (msg : message) : M A :=
  lift (FailJson changed msg).

(** [module.exit_json(changed=changed, **json)]: a key [changed] in [json]
    would be a second value for the keyword argument, a [TypeError] of the
    call itself. *)
Definition exit_json {A} (changed : bool) (json : gmap string value) : M A :=
  match json !! "changed" with
  | None => lift (ExitJson changed json)
  | Some _ =>
      lift (Raise (TypeError
        "exit_json() got multiple values for keyword argument 'changed'"))
  end.

(** The largest whole number of seconds [time.sleep] takes.  The
    interpreter turns the argument into a signed 64-bit count of
    nanoseconds, so the bound is the quotient of [2^63 - 1] by [10^9]. *)
Definition sleep_max : Z := 9223372036.

(** [time.sleep(v)]: the argument is converted first, and an integer
    whose nanoseconds do not fit raises [OverflowError]; a negative one
    that fits raises [ValueError].  Both are subclasses of [Exception]
    other than the four the model names. *)
Definition time_sleep (v : value) : M unit :=
  λ h, match v with
       | VInt n =>
           if (sleep_max <? Z.abs n)%Z then
             (Raise (Exception
                "timestamp too large to convert to C _PyTime_t"), h)
           else if (n <? 0)%Z then
             (Raise (Exception "sleep length must be non-negative"), h)
           else (Ok (), h ++ [sleep n])
       | VBool b => (Ok (), h ++ [sleep (Z.b2z b)])
       | _ => (Raise (TypeError "a number is required"), h)
       end.

(** [json['status']['state'] != 'RUNNING'] guarded by ['status' not in
    json], the condition of the loop at lines 359-360. *)
Definition not_running (json : gmap string value) : result bool :=
  match json !! "status" with
  | None => Ok true
  | Some status =>
      state ← getitem status "state";
      Ok (negb (eq_str state "RUNNING"))
  end.

(** ** The declared interface (lines 295-317) *)

Record argument : Type := dict_ {
  required : bool;
  default_ : option value;
  type_ : option string
}.

Definition argument_spec : list (string * argument) :=
  [ ("name", dict_ true None None);
    ("state", dict_ false (Some (VStr "present")) None);
    ("network", dict_ false None None);
    ("subnetwork", dict_ false None None);
    ("region", dict_ false (Some (VStr "us-central1")) None);
    ("zone", dict_ false (Some (VStr "us-central1-a")) None);
    ("sync", dict_ false (Some (VBool true)) (Some "bool"));
    ("poll_interval", dict_ false (Some (VInt 1)) (Some "int"));
    ("image_version", dict_ false None None);
    ("service_account_scopes", dict_ false None (Some "list"));
    ("metadata", dict_ false None (Some "dict"));
    ("init_actions", dict_ false None (Some "list"));
    ("master_config", dict_ false None (Some "dict"));
    ("worker_config", dict_ false None (Some "dict"));
    ("second_worker_config", dict_ false None (Some "dict"));
    ("bucket", dict_ false None None) ].

Definition mutually_exclusive : list (list string) :=
  [ ["network"; "subnetwork"] ].

(** The scope the module asks credentials for (line 210). *)
Definition auth_scopes : list string :=
  ["https://www.googleapis.com/auth/cloud-platform"].

Section Module.

(** The world the module runs in. *)
Context (remote : world).

(** [<call>.execute()]: the call is recorded, then its answer is returned
    or raised. *)
Definition execute (c : call) : M (gmap string value) :=
  λ h, match remote h c with
       | Returns json => (Ok json, h ++ [c])
       | Raises e => (Raise e, h ++ [c])
       end.

(** [google_auth(module, cred_path)] (lines 209-220) *)
Definition google_auth (cred_path : string) : M unit :=
  let scopes := auth_scopes in
  try_except
    (_ ← execute (from_json_keyfile_name cred_path scopes); mret ())
    (λ e, fail_json (Some false) (msg_exn e)).

(** The [while] loop of lines 359-365.  [fuel] bounds the number of times
    the condition is evaluated. *)
Fixpoint poll (fuel : nat) (gce_project : string) (name poll_interval : value)
    (json : gmap string value) : M (gmap string value) :=
  match fuel with
  | O => lift OutOfFuel
  | S fuel' =>
      waiting ← lift (not_running json);
      if waiting : bool then
        json ← execute (clusters_get gce_project "global" name);
        _ ← time_sleep poll_interval;
        poll fuel' gce_project name poll_interval json
      else mret json
  end.

(** Lines 343-387 of [main]: the calls on the cluster endpoints, once
    [gce_project] is known and [dataproc] is built. *)
Definition converge (fuel : nat) (params : gmap string value)
    (gce_project : string) : M Empty_set :=
  let name := params_get params "name" in
  let state := params_get params "state" in
  let region := params_get params "region" in
  let zone := params_get params "zone" in
  let sync := params_get params "sync" in
  let poll_interval := params_get params "poll_interval" in
  let json : gmap string value := ∅ in
  let changed := false in
  '(json, changed) ←
    (if in_strs state ["present"; "active"] then
       try_except
         (json ← execute (clusters_get gce_project "global" name);
          mret (json, changed))
         (λ e,
            if is_HttpError e then
              body ← lift (populate_request_body params name
                             gce_project region zone);
              json ← execute (clusters_create gce_project "global" body);
              json ← (if truthy sync then
                        poll fuel gce_project name poll_interval json
                      else mret json);
              mret (json, true)
            else
              fail_json (Some changed) (msg_str (str_exn e)))
     else if in_strs state ["absent"; "deleted"] then
       found ← try_except
                 (json ← execute (clusters_get gce_project "global" name);
                  mret (Some json))
                 (λ e,
                    if is_HttpError e then mret None
                    else fail_json (Some changed) (msg_str (str_exn e)));
       match found with
       | Some _ =>
           json ← execute (clusters_delete gce_project "global" name);
           mret (json, true)
       | None => mret (json, changed)
       end
     else mret (json, changed));
  exit_json changed json.

Definition env_message : string :=
  "Please define Google auth environment " +:+
  "variables GCE_EMAIL, GCE_PROJECT and " +:+
  "GCE_CREDENTIALS_FILE_PATH".

(** Lines 319-387 of [main]: everything after the construction of
    [module], run on [module.params], [os.environ] and the outcome of the
    import at lines 201-207. *)
Definition reconcile (fuel : nat) (HAS_GOOGLE_API_LIB : bool)
    (params : gmap string value) (environ : gmap string string)
    : M Empty_set :=
  _ ← (if negb HAS_GOOGLE_API_LIB then
         fail_json None
           (msg_str "Please install google-api-python-client library")
       else mret ());
  let region := params_get params "region" in
  let zone := params_get params "zone" in
  _ ← match zone with
      | VStr z =>
          match region with
          | VStr r =>
              if negb (String.prefix r z) then
                fail_json None
                  (msg_str ("Region " +:+ r +:+ " must contain zone " +:+ z))
              else mret ()
          | _ => lift (Raise (TypeError
                   "startswith first arg must be str or a tuple of str"))
          end
      | _ => lift (Raise (AttributeError
               "object has no attribute 'startswith'"))
      end;
  let gce_email := environ !! "GCE_EMAIL" in
  let gce_project := environ !! "GCE_PROJECT" in
  let gce_credentials := environ !! "GCE_CREDENTIALS_FILE_PATH" in
  match gce_email, gce_project, gce_credentials with
  | Some gce_email, Some gce_project, Some gce_credentials =>
      if (gce_email =? EmptyString) || (gce_project =? EmptyString)
         || (gce_credentials =? EmptyString)
      then fail_json (Some false) (msg_str env_message)
      else
        _ ← google_auth gce_credentials;
        _ ← execute (build "dataproc" "v1");
        converge fuel params gce_project
  | _, _, _ => fail_json (Some false) (msg_str env_message)
  end.

(** AnsibleModule's conversion of a supplied value to the declared type of
    its argument ([None]: the value cannot be converted).  It belongs to
    the framework; nothing below depends on what it computes. *)
Context (check_type : option string → value → option value).

(** The value of one declared argument: the supplied one, else the
    default, converted to the declared type; [None] when there is
    neither. *)
Definition param_value (args : gmap string value) (k : string)
    (a : argument) : option value :=
  match args !! k with
  | Some v => check_type (type_ a) v
  | None =>
      match default_ a with
      | Some d => check_type (type_ a) d
      | None => Some VNone
      end
  end.

Fixpoint set_params (spec : list (string * argument))
    (args : gmap string value) : option (gmap string value) :=
  match spec with
  | [] => Some ∅
  | (k, a) :: rest =>
      v ← param_value args k a;
      params ← set_params rest args;
      Some (<[k := v]> params)
  end.

(** Modelled from the spec: [AnsibleModule], the framework class imported
    at line 390 from [ansible.module_utils.basic], is not part of the
    source.  Following the spec's invocation surface (section 6) and error
    taxonomy (section 7): the input is a structured value with the
    declared fields only; options declared mutually exclusive and both
    set, a missing required field, or a value of the wrong type are fatal
    configuration errors; an absent field takes its default, or [None].
    On success it yields [module.params]. *)
Definition AnsibleModule (argument_spec : list (string * argument))
    (mutually_exclusive : list (list string)) (args : gmap string value)
    : result (gmap string value) :=
  if negb (bool_decide (dom args ⊆ list_to_set argument_spec.*1)) then
    FailJson None (msg_str "unsupported parameter for module")
  else if existsb
            (λ check : list string,
               (1 <? length (filter (λ k, is_Some (args !! k)) check))%nat)
            mutually_exclusive then
    FailJson None (msg_str "parameters are mutually exclusive")
  else if existsb
            (λ ka : string * argument,
               required ka.2 && negb (bool_decide (is_Some (args !! ka.1))))
            argument_spec then
    FailJson None (msg_str "missing required arguments")
  else
    match set_params argument_spec args with
    | Some params => Ok params
    | None => FailJson None (msg_str "argument is of the wrong type")
    end.

(** [main()] (lines 294-387), run on the arguments of the task. *)
Definition main (fuel : nat) (HAS_GOOGLE_API_LIB : bool)
    (args : gmap string value) (environ : gmap string string)
    : M Empty_set :=
  params ← lift (AnsibleModule argument_spec mutually_exclusive args);
  reconcile fuel HAS_GOOGLE_API_LIB params environ.

End Module.

(** ** The request body as the specification describes it *)

(** An optional entry of a dictionary: there when the option is set to a
    non-empty value, left out otherwise. *)
Definition optional (k : string) (opt v : value) : list (string * value) :=
  if truthy opt then [(k, v)] else [].

(** The text of a string option. *)
Definition text (v : value) : string :=
  match v with VStr s => s | _ => EmptyString end.

(** The elements of a list option. *)
Definition elements_of (v : value) : list value :=
  match v with VList l => l | _ => [] end.

Definition resource_uri (project : string) (segments : list string) : string :=
  google_base_uri project +:+ String.concat "/" segments.

(** [buildRequestBody] of the specification (section 4.1): the cluster
    name, the project id and the zone URI, and of the optional fields
    those that are set and non-empty; scopes and metadata sit under the
    cluster's GCE config, each scope expanded to its OAuth URI. *)
Definition buildRequestBody (params : gmap string value) (name : value)
    (project region zone : string) : value :=
  let opt := params_get params in
  VDict (list_to_map
    [ ("clusterName", name);
      ("projectId", VStr project);
      ("config", VDict (list_to_map (
         [ ("gceClusterConfig", VDict (list_to_map (
              [ ("zoneUri", VStr (resource_uri project ["zones"; zone])) ]
              ++ optional "tags" (opt "tags")
                   (VList (VStr <$> split "," (text (opt "tags"))))
              ++ optional "networkUri" (opt "network")
                   (VStr (resource_uri project
                            ["regions"; region; text (opt "network")]))
              ++ optional "subnetworkUri" (opt "subnetwork")
                   (VStr (resource_uri project
                            ["regions"; region; text (opt "subnetwork")]))
              ++ optional "serviceAccountScopes" (opt "service_account_scopes")
                   (VList ((λ scope, VStr (scope_prefix +:+ text scope))
                             <$> elements_of (opt "service_account_scopes")))
              ++ optional "metadata" (opt "metadata") (opt "metadata")))) ]
         ++ optional "softwareConfig" (opt "image_version")
              (VDict {["imageVersion" := opt "image_version"]})
         ++ optional "configBucket" (opt "bucket") (opt "bucket")
         ++ optional "initializationActions" (opt "init_actions")
              (opt "init_actions")
         ++ optional "masterConfig" (opt "master_config") (opt "master_config")
         ++ optional "workerConfig" (opt "worker_config") (opt "worker_config")
         ++ optional "secondaryWorkerConfig" (opt "second_worker_config")
              (opt "second_worker_config")))) ]).

(** A string-typed option as [module.params] holds it: a string, or
    [None] when the option is not set. *)
Definition str_or_none (v : value) : Prop :=
  v = VNone ∨ ∃ s, v = VStr s.

(** The shape every intermediate body of [populate_request_body] has. *)
Definition mk_body (name : value) (project : string)
    (gce config : gmap string value) : value :=
  VDict (<["clusterName" := name]> (<["projectId" := VStr project]>
    {["config" := VDict (<["gceClusterConfig" := VDict gce]> config)]})).

(** Partial correctness of a pure computation: if it returns, the value
    satisfies [Q]. *)
Definition returns_only {A} (r : result A) (Q : A → Prop) : Prop :=
  match r with Ok a => Q a | _ => True end.

(** ** Histories and worlds the statements speak of *)

(** The two calls every run that reaches the cluster endpoints begins
    with. *)
Definition h_setup (gce_credentials : string) : list call :=
  [from_json_keyfile_name gce_credentials auth_scopes; build "dataproc" "v1"].

(** The history after the first fetch, and after the create call. *)
Definition h_fetch (gce_credentials gce_project : string) (name : value)
    : list call :=
  h_setup gce_credentials ++ [clusters_get gce_project "global" name].

Definition h_create (gce_credentials gce_project : string) (name body : value)
    : list call :=
  h_fetch gce_credentials gce_project name
  ++ [clusters_create gce_project "global" body].

(** [n] rounds of the loop: a fetch, then a sleep. *)
Fixpoint polls (gce_project : string) (name : value) (secs : Z) (n : nat)
    : list call :=
  match n with
  | O => []
  | S n =>
      clusters_get gce_project "global" name :: sleep secs
      :: polls gce_project name secs n
  end.

(** The seconds [time.sleep(v)] sleeps for, when it accepts [v]: a
    whole number from 0 to [sleep_max], or a boolean. *)
Definition seconds (v : value) : option Z :=
  match v with
  | VInt n => if ((0 <=? n) && (n <=? sleep_max))%Z then Some n else None
  | VBool b => Some (Z.b2z b)
  | _ => None
  end.

(** What the loop tests at its [k]-th evaluation of the condition, when
    it started from history [h] with [json0]: the answer to the create
    call first, then the answer to each fetch. *)
Definition seen (remote : world) (h : list call) (gce_project : string)
    (name : value) (secs : Z) (json0 : gmap string value) (k : nat)
    : response :=
  match k with
  | O => Returns json0
  | S k' =>
      remote (h ++ polls gce_project name secs k')
        (clusters_get gce_project "global" name)
  end.

(** The status of [json] is "RUNNING". *)
Definition running (json : gmap string value) : Prop :=
  lookup_at (VDict json) ["status"; "state"] = Some (VStr "RUNNING").

(** The [n]-th answer is the first whose status is "RUNNING"; the
    condition of the loop evaluates on all the answers before it. *)
Definition polled (remote : world) (h : list call) (gce_project : string)
    (name : value) (secs : Z) (json0 : gmap string value) (n : nat)
    (json : gmap string value) : Prop :=
  (∀ k, k < n →
     ∃ j, seen remote h gce_project name secs json0 k = Returns j ∧
          not_running j = Ok true) ∧
  seen remote h gce_project name secs json0 n = Returns json ∧
  running json.


(** The run gets as far as the cluster endpoints: the library is there
    (the statements fix [HAS_GOOGLE_API_LIB] to [true]), the zone lies in
    the region, the three environment variables are set, the credentials
    load and the service object is built. *)
Record prepared (remote : world) (params : gmap string value)
    (environ : gmap string string) (gce_project gce_credentials : string)
    : Prop := {
  prepared_zone :
    ∃ z r, params_get params "zone" = VStr z ∧
           params_get params "region" = VStr r ∧
           String.prefix r z = true;
  prepared_email : ∃ e, environ !! "GCE_EMAIL" = Some e ∧ e ≠ EmptyString;
  prepared_project :
    environ !! "GCE_PROJECT" = Some gce_project ∧ gce_project ≠ EmptyString;
  prepared_credentials :
    environ !! "GCE_CREDENTIALS_FILE_PATH" = Some gce_credentials ∧
    gce_credentials ≠ EmptyString;
  prepared_auth :
    ∃ j, remote [] (from_json_keyfile_name gce_credentials auth_scopes)
         = Returns j;
  prepared_build :
    ∃ j, remote [from_json_keyfile_name gce_credentials auth_scopes]
           (build "dataproc" "v1") = Returns j
}.

Definition is_create (c : call) : bool :=
  match c with clusters_create _ _ _ => true | _ => false end.

Definition is_delete (c : call) : bool :=
  match c with clusters_delete _ _ _ => true | _ => false end.

(** The create calls, and the delete calls, of a history. *)
Definition creates (h : list call) : list call := List.filter is_create h.
Definition deletes (h : list call) : list call := List.filter is_delete h.

(** A call on a cluster endpoint names the region "global". *)
Definition global_region (c : call) : Prop :=
  match c with
  | clusters_get _ region _
  | clusters_create _ region _
  | clusters_delete _ region _ => region = "global"
  | _ => True
  end.

(** A computation that adds only calls satisfying [P] to the history. *)
Definition adds_only {A} (P : call → Prop) (m : M A) : Prop :=
  ∀ h, Forall P h → Forall P (m h).2.

Definition insert_if (b : bool) (k : string) (v : value)
    (m : gmap string value) : gmap string value :=
  if b then <[k := v]> m else m.

(** What holds of every intermediate body of [populate_request_body] up
    to the statement on the scopes. *)
Definition shaped (params : gmap string value) (name : value)
    (project : string) (body : value) : Prop :=
  ∃ gce config,
    body = mk_body name project gce config ∧
    (truthy (params_get params "tags") = false → gce !! "tags" = None) ∧
    config !! "gceConfigCluster" = None.

(** ** Concrete runs *)

(** The task of the specification's example (section 8), with a staging
    bucket, as [module.params] holds it. *)
Definition demo_params : gmap string value :=
  list_to_map
    [ ("name", VStr "demo"); ("state", VStr "present");
      ("region", VStr "us-central1"); ("zone", VStr "us-central1-a");
      ("sync", VBool false); ("poll_interval", VInt 1);
      ("bucket", VStr "staging") ].

Definition demo_environ : gmap string string :=
  list_to_map
    [ ("GCE_EMAIL", "robot@example.com"); ("GCE_PROJECT", "proj");
      ("GCE_CREDENTIALS_FILE_PATH", "/etc/key.json") ].

(** A cluster resource in state [st], and the operation resource that
    create and delete answer with. *)
Definition cluster_json (st : string) : gmap string value :=
  {[ "clusterName" := VStr "demo";
     "status" := VDict {[ "state" := VStr st ]} ]}.

Definition operation_json : gmap string value :=
  {[ "name" := VStr "operations/1" ]}.

(** A remote service: whether the cluster exists at the start, what the
    create and the delete call answer, and after how many sleeps of the
    caller a created cluster is running ([None]: never). *)
Record scenario : Type := {
  exists_at_start : bool;
  create_answer : response;
  delete_answer : response;
  running_after : option nat
}.

Definition is_sleep (c : call) : bool :=
  match c with sleep _ => true | _ => false end.

Definition world_of (s : scenario) : world :=
  λ h c,
    match c with
    | clusters_get _ _ _ =>
        if exists_at_start s then Returns (cluster_json "RUNNING")
        else if existsb is_create h then
          match running_after s with
          | Some n =>
              if (n <=? length (List.filter is_sleep h))%nat
              then Returns (cluster_json "RUNNING")
              else Returns (cluster_json "CREATING")
          | None => Returns (cluster_json "CREATING")
          end
        else Raises (HttpError "404 Not Found")
    | clusters_create _ _ _ => create_answer s
    | clusters_delete _ _ _ => delete_answer s
    | _ => Returns ∅
    end.

(** The cluster is missing and is running after [n] sleeps. *)
Definition missing (n : option nat) : scenario :=
  {| exists_at_start := false; create_answer := Returns operation_json;
     delete_answer := Raises (HttpError "404 Not Found");
     running_after := n |}.

(** The cluster is there. *)
Definition existing : scenario :=
  {| exists_at_start := true;
     create_answer := Raises (HttpError "409 Already Exists");
     delete_answer := Returns operation_json; running_after := Some 0%nat |}.

(** The cluster is missing and the service refuses to create it. *)
Definition create_refused : scenario :=
  {| exists_at_start := false;
     create_answer := Raises (HttpError "403 Quota exceeded");
     delete_answer := Raises (HttpError "404 Not Found");
     running_after := None |}.

(** The cluster is there and the service refuses to delete it. *)
Definition delete_refused : scenario :=
  {| exists_at_start := true;
     create_answer := Raises (HttpError "409 Already Exists");
     delete_answer := Raises (HttpError "403 Forbidden");
     running_after := Some 0%nat |}.

(** A conversion that accepts a value as it is. *)
Definition check_type_id (t : option string) (v : value) : option value :=
  Some v.

(** The body the specification asks for, for a task of project "proj"
    in zone us-central1-a. *)
Definition demo_body (params : gmap string value) : value :=
  buildRequestBody params (VStr "demo") "proj" "us-central1" "us-central1-a".

(** The same task, waiting for the cluster. *)
Definition sync_params : gmap string value :=
  <["sync" := VBool true]> demo_params.

(** The same task with a service-account scope, and with metadata. *)
Definition scoped_params : gmap string value :=
  <["service_account_scopes" := VList [VStr "cloud-platform"]]> demo_params.

Definition labelled_params : gmap string value :=
  <["metadata" := VDict {["team" := VStr "data"]}]> demo_params.

(** [module.params] of the task that gives only a name. *)
Definition demo_module_params : gmap string value :=
  list_to_map
     [ ("name", VStr "demo"); ("state", VStr "present");
       ("network", VNone); ("subnetwork", VNone);
       ("region", VStr "us-central1"); ("zone", VStr "us-central1-a");
       ("sync", VBool true); ("poll_interval", VInt 1);
       ("image_version", VNone); ("service_account_scopes", VNone);
       ("metadata", VNone); ("init_actions", VNone);
       ("master_config", VNone); ("worker_config", VNone);
       ("second_worker_config", VNone); ("bucket", VNone) ].

(** ** Further notions: inputs of the builder *)

Definition is_str (v : value) : bool :=
  match v with VStr _ => true | _ => false end.

(** An option that is a string whenever [if v:] holds. *)
Definition str_if_set (v : value) : bool := negb (truthy v) || is_str v.

(** The inputs on which no statement of [populate_request_body] raises:
    the zone is a string; tags, network and subnetwork are strings when
    set; the region is a string when a network or a subnetwork is set;
    neither scopes nor metadata are set. *)
Definition buildable (params : gmap string value) (region zone : value)
    : bool :=
  is_str zone
  && str_if_set (params_get params "tags")
  && str_if_set (params_get params "network")
  && str_if_set (params_get params "subnetwork")
  && (negb (truthy (params_get params "network")
            || truthy (params_get params "subnetwork"))
      || is_str region)
  && negb (truthy (params_get params "service_account_scopes"))
  && negb (truthy (params_get params "metadata")).

(** The options [populate_request_body] reads (lines 228-238). *)
Definition builder_options : list string :=
  [ "image_version"; "bucket"; "network"; "subnetwork"; "tags";
    "service_account_scopes"; "metadata"; "init_actions"; "master_config";
    "worker_config"; "second_worker_config" ].

(** The options copied as they are, each with its key under [config]
    (lines 257-258 and 283-290). *)
Definition copied_options : list (string * string) :=
  [ ("bucket", "configBucket");
    ("init_actions", "initializationActions");
    ("master_config", "masterConfig");
    ("worker_config", "workerConfig");
    ("second_worker_config", "secondaryWorkerConfig") ].

(** The options turned into a resource URI of the region, each with its
    key under the cluster's GCE config (lines 261-276). *)
Definition uri_options : list (string * string) :=
  [ ("network", "networkUri"); ("subnetwork", "subnetworkUri") ].

(** The character [c] does not occur in [s]. *)
Definition free_of (c : ascii) (s : string) : Prop :=
  c ∉ String.list_ascii_of_string s.

(** ** Further notions: runs *)

(** An environment variable is set to a non-empty value. *)
Definition is_set (environ : gmap string string) (k : string) : bool :=
  match environ !! k with
  | Some s => negb (s =? EmptyString)
  | None => false
  end.

(** The test of line 335, negated. *)
Definition env_complete (environ : gmap string string) : bool :=
  is_set environ "GCE_EMAIL" && is_set environ "GCE_PROJECT"
  && is_set environ "GCE_CREDENTIALS_FILE_PATH".

(** The checks of lines 319-339 pass (with the library there): the zone
    lies in the region and the three environment variables are set. *)
Record configured (params : gmap string value)
    (environ : gmap string string) (gce_project gce_credentials : string)
    : Prop := {
  configured_zone :
    ∃ z r, params_get params "zone" = VStr z ∧
           params_get params "region" = VStr r ∧
           String.prefix r z = true;
  configured_env : env_complete environ = true;
  configured_project : environ !! "GCE_PROJECT" = Some gce_project;
  configured_credentials :
    environ !! "GCE_CREDENTIALS_FILE_PATH" = Some gce_credentials
}.

Definition is_get (c : call) : bool :=
  match c with clusters_get _ _ _ => true | _ => false end.

Definition is_auth (c : call) : bool :=
  match c with from_json_keyfile_name _ _ => true | _ => false end.

Definition is_build (c : call) : bool :=
  match c with build _ _ => true | _ => false end.

(** The calls on the cluster endpoints. *)
Definition cluster_calls (h : list call) : list call :=
  List.filter (λ c, is_get c || is_create c || is_delete c) h.

(** What [converge] can add to a history: nothing but a fetch; a fetch, a
    create call and rounds of the loop; a fetch and a delete call. *)
Inductive converge_trace (gce_project : string) (name : value)
    : list call → Prop :=
| trace_fetch :
    converge_trace gce_project name [clusters_get gce_project "global" name]
| trace_create body l :
    Forall (λ c, c = clusters_get gce_project "global" name
                 ∨ ∃ s, c = sleep s) l →
    converge_trace gce_project name
      (clusters_get gce_project "global" name
       :: clusters_create gce_project "global" body :: l)
| trace_delete :
    converge_trace gce_project name
      [clusters_get gce_project "global" name;
       clusters_delete gce_project "global" name]
| trace_none : converge_trace gce_project name [].

(** The world [w], except that the calls selected by [p] are answered
    with [r]. *)
Definition answering (p : call → bool) (r : response) (w : world) : world :=
  λ h c, if p c then r else w h c.


(** A service whose create call answers with a status that has no
    state. *)
Definition stateless_status : scenario :=
  {| exists_at_start := false;
     create_answer := Returns {["status" := VDict ∅]};
     delete_answer := Raises (HttpError "404 Not Found");
     running_after := None |}.

(** A task with tags, a network and an image version. *)
Definition tagged_params : gmap string value :=
  <["tags" := VStr "spark,batch"]>
    (<["network" := VStr "default"]>
       (<["image_version" := VStr "1.1"]> demo_params)).

(** ** Further notions: two runs that differ in the region *)

(** The call [c], with [body] for the body if it is a create call. *)
Definition with_body (body : value) (c : call) : call :=
  match c with
  | clusters_create projectId region _ => clusters_create projectId region body
  | _ => c
  end.

(** The world [remote] behind [f]: of every call [c], in the history and
    as the call to answer, it is shown [f c]. *)
Definition through (f : call → call) (remote : world) : world :=
  λ h c, remote (f <$> h) (f c).

(** [m2] read through [f] is [m1]: from a history [h], [m2] ends as [m1]
    does from [f <$> h], and the calls it made are, under [f], the calls
    [m1] made. *)
Definition simulates {A} (f : call → call) (m1 m2 : M A) : Prop :=
  ∀ h, m1 (f <$> h) = ((m2 h).1, f <$> (m2 h).2).

(** The body a call of the builder returned, [None] if it raised. *)
Definition body_of (r : result value) : value :=
  match r with Ok body => body | _ => VNone end.

(** The dictionary [v] with [f] applied to its entry under [k], and [v]
    without its entry under [k]. *)
Definition update_key (k : string) (f : value → value) (v : value) : value :=
  match v with VDict d => VDict (alter f k d) | _ => v end.

Definition remove_key (k : string) (v : value) : value :=
  match v with VDict d => VDict (delete k d) | _ => v end.

(** A request body without the two URIs made from the region, at
    [body['config']['gceClusterConfig']]. *)
Definition without_uris (body : value) : value :=
  update_key "config"
    (update_key "gceClusterConfig"
       (λ gce, remove_key "networkUri" (remove_key "subnetworkUri" gce)))
    body.


(** * Properties *)

(** ** The request body *)

Lemma bind_Ok {A B} (a : A) (f : A → result B) : (Ok a ≫= f) = f a.
Proof. reflexivity. Qed.

Lemma mk_body_config name project gce config :
  getitem (mk_body name project gce config) "config"
  = Ok (VDict (<["gceClusterConfig" := VDict gce]> config)).
Proof. unfold mk_body, getitem. by simplify_map_eq. Qed.

Lemma mk_body_set_config name project gce config gce' config' :
  setitem (mk_body name project gce config) "config"
    (VDict (<["gceClusterConfig" := VDict gce']> config'))
  = Ok (mk_body name project gce' config').
Proof.
  unfold mk_body, setitem. reflexivity.
Qed.

Lemma setitem_at_config name project gce config k v :
  k ≠ "gceClusterConfig" →
  setitem_at (mk_body name project gce config) ["config"] k v
  = Ok (mk_body name project gce (<[k := v]> config)).
Proof.
  intros Hk. cbn [setitem_at]. rewrite mk_body_config, bind_Ok.
  cbn [setitem]. rewrite bind_Ok.
  rewrite insert_insert_ne by done. apply mk_body_set_config.
Qed.

Lemma setitem_at_gce name project gce config k v :
  setitem_at (mk_body name project gce config)
    ["config"; "gceClusterConfig"] k v
  = Ok (mk_body name project (<[k := v]> gce) config).
Proof.
  cbn [setitem_at]. rewrite mk_body_config, bind_Ok.
  unfold getitem at 1. rewrite lookup_insert_eq, bind_Ok.
  cbn [setitem]. rewrite !bind_Ok.
  rewrite insert_insert_eq. apply mk_body_set_config.
Qed.

Lemma setitem_at_missing name project gce config p k v :
  p ≠ "gceClusterConfig" → config !! p = None →
  setitem_at (mk_body name project gce config) ["config"; p] k v
  = Raise (KeyError p).
Proof.
  intros Hp Hc. cbn [setitem_at]. rewrite mk_body_config, bind_Ok.
  unfold getitem at 1. rewrite lookup_insert_ne by done. by rewrite Hc.
Qed.

Lemma setitem_at_software name project gce config d k v :
  setitem_at (mk_body name project gce (<["softwareConfig" := VDict d]> config))
    ["config"; "softwareConfig"] k v
  = Ok (mk_body name project gce
          (<["softwareConfig" := VDict (<[k := v]> d)]> config)).
Proof.
  cbn [setitem_at]. rewrite mk_body_config, bind_Ok.
  unfold getitem at 1. rewrite lookup_insert_ne by done.
  rewrite lookup_insert_eq, bind_Ok. cbn [setitem]. rewrite !bind_Ok.
  rewrite (insert_insert_ne config "gceClusterConfig" "softwareConfig")
    by done.
  rewrite insert_insert_eq.
  rewrite (insert_insert_ne config "softwareConfig" "gceClusterConfig")
    by done.
  apply mk_body_set_config.
Qed.


(** One conditional statement of the builder, on a body of the expected
    shape. *)
Lemma step_config (b : bool) name project gce config k v :
  k ≠ "gceClusterConfig" →
  (if b then setitem_at (mk_body name project gce config) ["config"] k v
   else Ok (mk_body name project gce config))
  = Ok (mk_body name project gce (insert_if b k v config)).
Proof. intros Hk. destruct b; [by apply setitem_at_config | done]. Qed.

Lemma step_gce (b : bool) name project gce config k v :
  (if b then setitem_at (mk_body name project gce config)
               ["config"; "gceClusterConfig"] k v
   else Ok (mk_body name project gce config))
  = Ok (mk_body name project (insert_if b k v gce) config).
Proof. destruct b; [apply setitem_at_gce | done]. Qed.

Lemma step_software (b : bool) name project gce config v :
  (if b then
     body ← setitem_at (mk_body name project gce config) ["config"]
              "softwareConfig" (VDict ∅);
     setitem_at body ["config"; "softwareConfig"] "imageVersion" v
   else Ok (mk_body name project gce config))
  = Ok (mk_body name project gce
          (insert_if b "softwareConfig" (VDict {["imageVersion" := v]})
             config)).
Proof.
  destruct b; [|done].
  rewrite setitem_at_config by done. rewrite bind_Ok.
  rewrite setitem_at_software. by rewrite insert_empty.
Qed.


Lemma generate_resource_uri_strs project (segments : list string) :
  generate_resource_uri project (VStr <$> segments)
  = Ok (resource_uri project segments).
Proof.
  unfold generate_resource_uri, resource_uri.
  assert (as_strs (VStr <$> segments) = Ok segments) as ->; [|done].
  induction segments as [|s l IH]; [done|].
  cbn. by rewrite IH.
Qed.

Lemma config_entries (o1 o2 o3 o4 o5 o6 v1 v2 v3 v4 v5 v6 : value) :
  insert_if (truthy o6) "secondaryWorkerConfig" v6
    (insert_if (truthy o5) "workerConfig" v5
      (insert_if (truthy o4) "masterConfig" v4
        (insert_if (truthy o3) "initializationActions" v3
          (insert_if (truthy o2) "configBucket" v2
            (insert_if (truthy o1) "softwareConfig" v1 ∅)))))
  = list_to_map
      (optional "softwareConfig" o1 v1 ++ optional "configBucket" o2 v2
       ++ optional "initializationActions" o3 v3
       ++ optional "masterConfig" o4 v4 ++ optional "workerConfig" o5 v5
       ++ optional "secondaryWorkerConfig" o6 v6).
Proof.
  unfold optional, insert_if.
  destruct (truthy o1), (truthy o2), (truthy o3), (truthy o4), (truthy o5),
    (truthy o6); reflexivity.
Qed.

Lemma gce_entries (o1 o2 o3 o4 o5 z v1 v2 v3 v4 v5 : value) :
  truthy o4 = false → truthy o5 = false →
  insert_if (truthy o3) "subnetworkUri" v3
    (insert_if (truthy o2) "networkUri" v2
      (insert_if (truthy o1) "tags" v1 {["zoneUri" := z]}))
  = list_to_map
      ([("zoneUri", z)] ++ optional "tags" o1 v1 ++ optional "networkUri" o2 v2
       ++ optional "subnetworkUri" o3 v3
       ++ optional "serviceAccountScopes" o4 v4 ++ optional "metadata" o5 v5).
Proof.
  unfold optional, insert_if. intros -> ->.
  destruct (truthy o1), (truthy o2), (truthy o3); reflexivity.
Qed.

Lemma step_tags tags name project gce config :
  str_or_none tags →
  (if truthy tags then
     l ← str_split_comma tags;
     setitem_at (mk_body name project gce config)
       ["config"; "gceClusterConfig"] "tags" l
   else Ok (mk_body name project gce config))
  = Ok (mk_body name project
          (insert_if (truthy tags) "tags"
             (VList (VStr <$> split "," (text tags))) gce) config).
Proof.
  intros [-> | [s ->]]; [done|].
  cbn [str_split_comma text]. rewrite bind_Ok. apply step_gce.
Qed.

Lemma step_uri net k name project r gce config :
  str_or_none net →
  (if truthy net then
     uri ← generate_resource_uri project [VStr "regions"; VStr r; net];
     setitem_at (mk_body name project gce config)
       ["config"; "gceClusterConfig"] k (VStr uri)
   else Ok (mk_body name project gce config))
  = Ok (mk_body name project
          (insert_if (truthy net) k
             (VStr (resource_uri project ["regions"; r; text net])) gce)
          config).
Proof.
  intros [-> | [s ->]]; [done|].
  rewrite (generate_resource_uri_strs project ["regions"; r; s]
           : generate_resource_uri project
               [VStr "regions"; VStr r; VStr s] = _), bind_Ok.
  apply step_gce.
Qed.

Lemma populate_request_body_ok params name project r z :
  truthy (params_get params "service_account_scopes") = false →
  truthy (params_get params "metadata") = false →
  str_or_none (params_get params "tags") →
  str_or_none (params_get params "network") →
  str_or_none (params_get params "subnetwork") →
  populate_request_body params name project (VStr r) (VStr z)
  = Ok (buildRequestBody params name project r z).
Proof.
  intros Hscopes Hmeta Htags Hnet Hsub.
  unfold populate_request_body.
  rewrite Hscopes, Hmeta.
  rewrite (generate_resource_uri_strs project ["zones"; z]
           : generate_resource_uri project [VStr "zones"; VStr z] = _),
    bind_Ok.
  change (VDict (<["clusterName" := name]> _))
    with (mk_body name project
            {["zoneUri" := VStr (resource_uri project ["zones"; z])]} ∅).
  rewrite step_software, bind_Ok.
  rewrite step_config, bind_Ok by done.
  rewrite step_tags, bind_Ok by done.
  do 2 (rewrite step_uri by done; rewrite bind_Ok).
  rewrite !bind_Ok.
  do 4 (rewrite step_config by done; rewrite bind_Ok).
  f_equal. unfold buildRequestBody.
  rewrite config_entries.
  rewrite (gce_entries _ _ _ _ _ _ _ _ _
             (VList ((λ scope, VStr (scope_prefix +:+ text scope))
                <$> elements_of (params_get params "service_account_scopes")))
             (params_get params "metadata") Hscopes Hmeta).
  reflexivity.
Qed.

Lemma returns_only_bind {A B} (m : result A) (k : A → result B)
    (I : A → Prop) (Q : B → Prop) :
  returns_only m I → (∀ a, I a → returns_only (k a) Q) →
  returns_only (m ≫= k) Q.
Proof. destruct m; cbn; auto. Qed.

Lemma returns_only_raise {A B} (m : result A) (k : A → result B)
    (Q : B → Prop) :
  returns_only m (λ _, False) → returns_only (m ≫= k) Q.
Proof. destruct m; cbn; tauto. Qed.

Section Shape.
Context (params : gmap string value) (name : value) (project : string).

Lemma shaped_config body k v :
  k ≠ "gceClusterConfig" → k ≠ "gceConfigCluster" →
  (shaped params name project) body →
  returns_only (setitem_at body ["config"] k v) (shaped params name project).
Proof.
  intros Hk1 Hk2 (gce & config & -> & Hg & Hc).
  rewrite setitem_at_config by done.
  exists gce, (<[k := v]> config). split_and!; [done..|].
  by rewrite lookup_insert_ne.
Qed.

Lemma shaped_software body v :
  (shaped params name project) body →
  returns_only
    (body ← setitem_at body ["config"] "softwareConfig" (VDict ∅);
     setitem_at body ["config"; "softwareConfig"] "imageVersion" v)
    (shaped params name project).
Proof.
  intros (gce & config & -> & Hg & Hc).
  rewrite setitem_at_config, bind_Ok, setitem_at_software by done.
  eexists gce, _. split_and!; [done..|].
  by rewrite lookup_insert_ne.
Qed.

Lemma shaped_gce body k v :
  (k = "tags" → truthy (params_get params "tags") = true) →
  (shaped params name project) body →
  returns_only (setitem_at body ["config"; "gceClusterConfig"] k v)
    (shaped params name project).
Proof.
  intros Hk (gce & config & -> & Hg & Hc).
  rewrite setitem_at_gce.
  exists (<[k := v]> gce), config. split_and!; [done| |done].
  intros Ht. rewrite lookup_insert_ne; [by apply Hg|].
  intros Heq. rewrite (Hk Heq) in Ht. done.
Qed.

Lemma shaped_missing body k v :
  (shaped params name project) body →
  returns_only (setitem_at body ["config"; "gceConfigCluster"] k v)
    (λ _, False).
Proof.
  intros (gce & config & -> & Hg & Hc). by rewrite setitem_at_missing.
Qed.
End Shape.

Lemma populate_request_body_shape params name project region zone :
  returns_only (populate_request_body params name project region zone)
    (λ body,
       shaped params name project body ∧
       truthy (params_get params "service_account_scopes") = false ∧
       truthy (params_get params "metadata") = false).
Proof.
  unfold populate_request_body.
  destruct (generate_resource_uri project [VStr "zones"; zone])
    as [zoneUri| | | |]; [rewrite bind_Ok | exact I ..].
  cbv zeta.
  change (VDict (<["clusterName" := name]> _))
    with (mk_body name project {["zoneUri" := VStr zoneUri]} ∅).
  assert (shaped params name project
            (mk_body name project {["zoneUri" := VStr zoneUri]} ∅)) as H.
  { eexists _, _. split_and!; done. }
  revert H. generalize (mk_body name project {["zoneUri" := VStr zoneUri]} ∅).
  intros body H.
  (* image_version, bucket *)
  eapply returns_only_bind.
  { destruct (truthy _); [by apply shaped_software | exact H]. }
  clear body H; intros body H. eapply returns_only_bind.
  { destruct (truthy _); [by apply shaped_config | exact H]. }
  (* tags, network, subnetwork *)
  clear body H; intros body H. eapply returns_only_bind.
  { destruct (truthy _) eqn:Ht; [|exact H].
    destruct (str_split_comma _); [rewrite bind_Ok | exact I ..].
    by apply shaped_gce. }
  clear body H; intros body H. eapply returns_only_bind.
  { destruct (truthy _); [|exact H].
    destruct (generate_resource_uri _ _); [rewrite bind_Ok | exact I ..].
    by apply shaped_gce. }
  clear body H; intros body H. eapply returns_only_bind.
  { destruct (truthy _); [|exact H].
    destruct (generate_resource_uri _ _); [rewrite bind_Ok | exact I ..].
    by apply shaped_gce. }
  (* service_account_scopes, metadata *)
  clear body H; intros body H.
  destruct (truthy (params_get params "service_account_scopes")).
  { apply returns_only_raise.
    destruct (iterate _); [rewrite bind_Ok | exact I ..].
    destruct (comprehension _ _); [rewrite bind_Ok | exact I ..].
    by eapply shaped_missing. }
  rewrite bind_Ok.
  destruct (truthy (params_get params "metadata")).
  { apply returns_only_raise. by eapply shaped_missing. }
  rewrite bind_Ok.
  (* init_actions and the three instance configurations *)
  do 3 (eapply returns_only_bind;
        [ destruct (truthy _); [by apply shaped_config | exact H]
        | clear body H; intros body H ]).
  eapply returns_only_bind.
  { destruct (truthy _); [by apply shaped_config | exact H]. }
  cbn. auto.
Qed.

(** Whenever a truthy [service_account_scopes] or [metadata] reaches the
    builder, no body comes out of it. *)
Lemma populate_request_body_scopes_metadata params name project region zone :
  truthy (params_get params "service_account_scopes") = true ∨
  truthy (params_get params "metadata") = true →
  ∀ body, populate_request_body params name project region zone ≠ Ok body.
Proof.
  intros Hor body Hbody.
  pose proof (populate_request_body_shape params name project region zone)
    as H.
  rewrite Hbody in H. cbn in H. destruct H as (_ & Hs & Hm).
  destruct Hor; congruence.
Qed.

Lemma populate_request_body_no_tags params name project region zone body :
  truthy (params_get params "tags") = false →
  populate_request_body params name project region zone = Ok body →
  lookup_at body ["config"; "gceClusterConfig"; "tags"] = None.
Proof.
  intros Ht Hbody.
  pose proof (populate_request_body_shape params name project region zone)
    as H.
  rewrite Hbody in H. cbn in H.
  destruct H as ((gce & config & -> & Hg & _) & _).
  unfold mk_body. cbn [lookup_at].
  rewrite lookup_insert_ne, lookup_insert_ne, lookup_singleton_eq by done.
  cbn. rewrite lookup_insert_eq. cbn. rewrite (Hg Ht). done.
Qed.

(** ** The loop *)

Lemma M_bind_unfold {A B} (m : M A) (k : A → M B) h :
  (m ≫= k) h
  = match m h with
    | (Ok a, h') => k a h'
    | (Raise e, h') => (Raise e, h')
    | (ExitJson c j, h') => (ExitJson c j, h')
    | (FailJson c msg, h') => (FailJson c msg, h')
    | (OutOfFuel, h') => (OutOfFuel, h')
    end.
Proof. reflexivity. Qed.

Lemma execute_returns remote c h json :
  remote h c = Returns json → execute remote c h = (Ok json, h ++ [c]).
Proof. intros H. unfold execute. by rewrite H. Qed.

Lemma execute_raises remote c h e :
  remote h c = Raises e → execute remote c h = (Raise e, h ++ [c]).
Proof. intros H. unfold execute. by rewrite H. Qed.

Lemma time_sleep_seconds v secs h :
  seconds v = Some secs → time_sleep v h = (Ok (), h ++ [sleep secs]).
Proof.
  destruct v as [|b|n| | |]; cbn; try done.
  - congruence.
  - destruct (Z.leb_spec 0 n), (Z.leb_spec n sleep_max); cbn; try done.
    intros [= <-].
    destruct (Z.ltb_spec sleep_max (Z.abs n)); [lia|].
    by destruct (Z.ltb_spec n 0); [lia|].
Qed.

(** [time.sleep(v)] raises, adding no call, where [seconds v] is
    undefined. *)
Lemma time_sleep_refuses v :
  seconds v = None → ∃ e, ∀ h, time_sleep v h = (Raise e, h).
Proof.
  destruct v as [|b|n| | |]; cbn; try done; eauto.
  destruct (Z.ltb_spec sleep_max (Z.abs n)); [eauto|].
  destruct (Z.ltb_spec n 0); [eauto|].
  destruct (Z.leb_spec 0 n); [|lia].
  by destruct (Z.leb_spec n sleep_max); [|lia].
Qed.

Lemma not_running_false json : not_running json = Ok false ↔ running json.
Proof.
  unfold not_running, running. cbn.
  destruct (json !! "status") as [status|]; cbn; [|split; done].
  destruct status as [| | | | |d]; cbn; try (split; done).
  destruct (d !! "state") as [state|]; cbn; [|split; done].
  destruct state; cbn; try (split; done).
  split.
  - intros [= Heq]. apply negb_false_iff, String.eqb_eq in Heq. by subst.
  - intros [= ->]. done.
Qed.

Lemma polls_snoc gp name secs n :
  polls gp name secs n ++ [clusters_get gp "global" name; sleep secs]
  = polls gp name secs (S n).
Proof. induction n as [|n IH]; [done|]. cbn. by rewrite IH. Qed.

Lemma seen_shift remote h gp name secs j0 j1 k :
  seen remote h gp name secs j0 1 = Returns j1 →
  seen remote (h ++ [clusters_get gp "global" name; sleep secs]) gp name secs
    j1 k
  = seen remote h gp name secs j0 (S k).
Proof.
  intros H1. destruct k as [|k]; [by rewrite H1|].
  cbn. by rewrite <- app_assoc.
Qed.

Section Poll.
Context (remote : world) (gp : string) (name poll_interval : value)
  (secs : Z).
Hypothesis Hsecs : seconds poll_interval = Some secs.

(** One round of the loop. *)
Lemma poll_round fuel json json' h :
  not_running json = Ok true →
  remote h (clusters_get gp "global" name) = Returns json' →
  poll remote (S fuel) gp name poll_interval json h
  = poll remote fuel gp name poll_interval json'
      (h ++ [clusters_get gp "global" name; sleep secs]).
Proof.
  intros Hw Hr. cbn [poll]. rewrite M_bind_unfold. unfold lift at 1.
  rewrite Hw. rewrite M_bind_unfold, (execute_returns _ _ _ _ Hr).
  rewrite M_bind_unfold, (time_sleep_seconds _ _ _ Hsecs).
  by rewrite <- app_assoc.
Qed.

Lemma poll_done fuel json h :
  not_running json = Ok false →
  poll remote (S fuel) gp name poll_interval json h = (Ok json, h).
Proof.
  intros Hw. cbn [poll]. rewrite M_bind_unfold. unfold lift at 1.
  by rewrite Hw.
Qed.

Lemma poll_reaches n : ∀ fuel h json0 json,
  polled remote h gp name secs json0 n json → n < fuel →
  poll remote fuel gp name poll_interval json0 h
  = (Ok json, h ++ polls gp name secs n).
Proof.
  induction n as [|n IH]; intros fuel h json0 json (Hbefore & Hn & Hrun) Hf.
  - destruct fuel as [|fuel]; [lia|]. cbn in Hn. injection Hn as ->.
    rewrite poll_done by by apply not_running_false.
    by rewrite app_nil_r.
  - destruct fuel as [|fuel]; [lia|].
    destruct (Hbefore 0) as (j & Hj & Hw); [lia|].
    cbn in Hj. injection Hj as <-.
    assert (∃ json1, seen remote h gp name secs json0 1 = Returns json1)
      as [json1 H1].
    { destruct n as [|n]; [by eauto|].
      destruct (Hbefore 1) as (j & Hj & _); [lia|]. eauto. }
    pose proof H1 as H1'. cbn in H1'. rewrite app_nil_r in H1'.
    rewrite (poll_round _ _ _ _ Hw H1').
    rewrite (IH fuel _ json1 json); [| |lia].
    + by rewrite <- app_assoc.
    + split_and!.
      * intros k Hk. rewrite (seen_shift _ _ _ _ _ json0) by done.
        apply Hbefore. lia.
      * by rewrite (seen_shift _ _ _ _ _ json0).
      * done.
Qed.

End Poll.


(** The condition of the loop evaluates to a boolean or raises. *)
Lemma not_running_pure json :
  (∃ b, not_running json = Ok b) ∨ (∃ e, not_running json = Raise e).
Proof.
  unfold not_running. destruct (json !! "status") as [status|]; [|by eauto].
  destruct (getitem status "state") as [state|e| | |] eqn:Hs; cbn; eauto.
  all: destruct status as [| | | | |d]; cbn in Hs; try done.
  all: by destruct (d !! "state").
Qed.

(** The loop does not end the process. *)
Lemma poll_no_exit remote gp name poll_interval fuel :
  ∀ json0 h changed json h',
    poll remote fuel gp name poll_interval json0 h
    ≠ (ExitJson changed json, h').
Proof.
  induction fuel as [|fuel IH]; intros json0 h changed json h'; [done|].
  cbn [poll]. rewrite M_bind_unfold. unfold lift at 1.
  destruct (not_running_pure json0) as [[b ->] | [e ->]]; [|done].
  destruct b; [|done].
  rewrite M_bind_unfold. unfold execute.
  destruct (remote h _); [|done].
  rewrite M_bind_unfold.
  destruct (seconds poll_interval) as [secs|] eqn:Hsecs.
  - rewrite (time_sleep_seconds _ _ _ Hsecs). apply IH.
  - destruct (time_sleep_refuses _ Hsecs) as [e He]. by rewrite He.
Qed.

(** The loop adds fetches on region "global" and sleeps, nothing else. *)
Lemma poll_history remote gp name poll_interval fuel :
  ∀ json0 h, ∃ l,
    (poll remote fuel gp name poll_interval json0 h).2 = h ++ l ∧
    Forall (λ c, c = clusters_get gp "global" name ∨ ∃ s, c = sleep s) l.
Proof.
  assert (∀ h, ∃ l,
            h ++ [clusters_get gp "global" name] = h ++ l ∧
            Forall (λ c, c = clusters_get gp "global" name
                         ∨ ∃ s, c = sleep s) l) as Hget.
  { intros h. eexists. split; [done|]. constructor; [by left|done]. }
  induction fuel as [|fuel IH]; intros json0 h.
  { exists []. by rewrite app_nil_r. }
  cbn [poll]. rewrite M_bind_unfold. unfold lift at 1.
  destruct (not_running json0) as [[|]| | | |] eqn:Hw;
    try (exists []; by rewrite app_nil_r).
  rewrite M_bind_unfold. unfold execute.
  destruct (remote h _) as [json1|e]; [|apply Hget].
  rewrite M_bind_unfold.
  destruct (seconds poll_interval) as [secs|] eqn:Hsecs.
  - rewrite (time_sleep_seconds _ _ _ Hsecs).
    destruct (IH json1 ((h ++ [clusters_get gp "global" name])
                          ++ [sleep secs])) as (l & -> & Hl).
    exists (clusters_get gp "global" name :: sleep secs :: l).
    split; [by rewrite <- !app_assoc|].
    constructor; [by left|]. constructor; [right; eauto|done].
  - destruct (time_sleep_refuses _ Hsecs) as [e He]. rewrite He.
    apply Hget.
Qed.

(** ** The run up to the cluster endpoints *)

Lemma reconcile_prepared remote fuel params environ gp cred :
  prepared remote params environ gp cred →
  reconcile remote fuel true params environ []
  = converge remote fuel params gp (h_setup cred).
Proof.
  intros [(z & r & Hz & Hr & Hpre) (e & He & Hne) [Hp Hnp] [Hc Hnc]
            [ja Ha] [jb Hb]].
  unfold reconcile. rewrite M_bind_unfold. cbn [negb mret M_mret M_ret].
  rewrite Hz, Hr, Hpre. cbn [negb]. rewrite M_bind_unfold.
  cbn [mret M_mret M_ret].
  rewrite He, Hp, Hc.
  apply String.eqb_neq in Hne, Hnp, Hnc. rewrite Hne, Hnp, Hnc.
  cbn [orb]. rewrite M_bind_unfold.
  unfold google_auth, try_except. rewrite M_bind_unfold.
  rewrite (execute_returns _ _ _ _ Ha). cbn [mret M_mret M_ret].
  rewrite M_bind_unfold. cbn [app].
  by rewrite (execute_returns _ _ _ _ Hb).
Qed.

Section Converge.
Context (remote : world) (fuel : nat) (params : gmap string value)
  (gp : string) (h : list call).


Lemma converge_found json :
  in_strs (params_get params "state") ["present"; "active"] = true →
  remote h (clusters_get gp "global" (params_get params "name"))
  = Returns json →
  converge remote fuel params gp h
  = exit_json false json
      (h ++ [clusters_get gp "global" (params_get params "name")]).
Proof.
  intros Hs Hg. unfold converge. rewrite M_bind_unfold, Hs.
  unfold try_except. rewrite M_bind_unfold.
  by rewrite (execute_returns _ _ _ _ Hg).
Qed.

Lemma converge_fetch_error e :
  in_strs (params_get params "state") ["present"; "active"] = true ∨
  in_strs (params_get params "state") ["absent"; "deleted"] = true →
  remote h (clusters_get gp "global" (params_get params "name"))
  = Raises e →
  is_HttpError e = false →
  converge remote fuel params gp h
  = (FailJson (Some false) (msg_str (str_exn e)),
     h ++ [clusters_get gp "global" (params_get params "name")]).
Proof.
  intros Hs Hg He. unfold converge. rewrite M_bind_unfold.
  destruct (in_strs (params_get params "state") ["present"; "active"]).
  - unfold try_except. rewrite M_bind_unfold.
    rewrite (execute_raises _ _ _ _ Hg). by rewrite He.
  - destruct Hs as [|Hs]; [done|]. rewrite Hs.
    rewrite M_bind_unfold.
    unfold try_except. rewrite M_bind_unfold.
    rewrite (execute_raises _ _ _ _ Hg). by rewrite He.
Qed.

(** The handler of [HttpError] in the present branch. *)
Lemma converge_missing msg :
  in_strs (params_get params "state") ["present"; "active"] = true →
  remote h (clusters_get gp "global" (params_get params "name"))
  = Raises (HttpError msg) →
  converge remote fuel params gp h
  = (body ← lift (populate_request_body params (params_get params "name")
                    gp (params_get params "region")
                    (params_get params "zone"));
     json ← execute remote (clusters_create gp "global" body);
     json ← (if truthy (params_get params "sync") then
               poll remote fuel gp (params_get params "name")
                 (params_get params "poll_interval") json
             else mret json);
     exit_json true json)
      (h ++ [clusters_get gp "global" (params_get params "name")]).
Proof.
  intros Hs Hg. unfold converge. rewrite M_bind_unfold, Hs.
  unfold try_except. rewrite M_bind_unfold.
  rewrite (execute_raises _ _ _ _ Hg). cbn [is_HttpError].
  rewrite !M_bind_unfold.
  destruct (lift _ _) as [[body| | | |] h1]; try done.
  rewrite !M_bind_unfold.
  destruct (execute _ _ _) as [[json| | | |] h2]; try done.
  rewrite !M_bind_unfold.
  destruct (truthy _).
  - destruct (poll _ _ _ _ _ _ _) as [[json'| | | |] h3]; done.
  - done.
Qed.

Lemma absent_not_present :
  in_strs (params_get params "state") ["absent"; "deleted"] = true →
  in_strs (params_get params "state") ["present"; "active"] = false.
Proof.
  unfold in_strs. cbn [existsb].
  destruct (params_get params "state") as [| | |s| |]; cbn [eq_str]; try done.
  rewrite !orb_false_r.
  intros [->%String.eqb_eq | ->%String.eqb_eq]%orb_true_iff; done.
Qed.

Lemma converge_absent_missing msg :
  in_strs (params_get params "state") ["absent"; "deleted"] = true →
  remote h (clusters_get gp "global" (params_get params "name"))
  = Raises (HttpError msg) →
  converge remote fuel params gp h
  = (ExitJson false ∅,
     h ++ [clusters_get gp "global" (params_get params "name")]).
Proof.
  intros Hs Hg. unfold converge.
  rewrite M_bind_unfold, (absent_not_present Hs), Hs.
  rewrite M_bind_unfold. unfold try_except. rewrite M_bind_unfold.
  by rewrite (execute_raises _ _ _ _ Hg).
Qed.

Lemma converge_absent_found json :
  in_strs (params_get params "state") ["absent"; "deleted"] = true →
  remote h (clusters_get gp "global" (params_get params "name"))
  = Returns json →
  converge remote fuel params gp h
  = (json ← execute remote
              (clusters_delete gp "global" (params_get params "name"));
     exit_json true json)
      (h ++ [clusters_get gp "global" (params_get params "name")]).
Proof.
  intros Hs Hg. unfold converge.
  rewrite M_bind_unfold, (absent_not_present Hs), Hs.
  rewrite M_bind_unfold. unfold try_except. rewrite M_bind_unfold.
  rewrite (execute_returns _ _ _ _ Hg). cbn [mret M_mret M_ret].
  rewrite !M_bind_unfold.
  destruct (execute _ _ _) as [[json'| | | |] h2]; done.
Qed.
End Converge.

Lemma exit_json_ok {A} changed json h :
  json !! "changed" = None →
  @exit_json A changed json h = (ExitJson changed json, h).
Proof. intros H. unfold exit_json. by rewrite H. Qed.

Lemma exit_json_history {A} changed json h :
  (@exit_json A changed json h).2 = h.
Proof. unfold exit_json. by destruct (json !! "changed"). Qed.

Lemma exit_json_changed {A} changed json h c j h' :
  @exit_json A changed json h = (ExitJson c j, h') →
  c = changed ∧ j = json ∧ h' = h.
Proof.
  unfold exit_json. destruct (json !! "changed"); [done|].
  by intros [= -> -> ->].
Qed.

(** ** Calls added to the history *)

Section AddsOnly.
Context (P : call → Prop).

Lemma adds_only_lift {A} (r : result A) : adds_only P (lift r).
Proof. by intros h Hh. Qed.

Lemma adds_only_ret {A} (a : A) : adds_only P (mret a).
Proof. by intros h Hh. Qed.

Lemma adds_only_bind {A B} (m : M A) (k : A → M B) :
  adds_only P m → (∀ a, adds_only P (k a)) → adds_only P (m ≫= k).
Proof.
  intros Hm Hk h Hh. rewrite M_bind_unfold.
  specialize (Hm h Hh). destruct (m h) as [[a| | | |] h']; cbn in *; auto.
  by apply Hk.
Qed.

Lemma adds_only_try_except {A} (m : M A) (handler : exn → M A) :
  adds_only P m → (∀ e, adds_only P (handler e)) →
  adds_only P (try_except m handler).
Proof.
  intros Hm Hk h Hh. unfold try_except.
  specialize (Hm h Hh). destruct (m h) as [[a| | | |] h']; cbn in *; auto.
  by apply Hk.
Qed.

Lemma adds_only_execute remote c : P c → adds_only P (execute remote c).
Proof.
  intros Hc h Hh. unfold execute.
  destruct (remote h c); cbn; apply Forall_app; auto.
Qed.

Lemma adds_only_time_sleep v :
  (∀ s, P (sleep s)) → adds_only P (time_sleep v).
Proof.
  intros Hs h Hh.
  destruct (seconds v) as [secs|] eqn:Hsecs.
  - rewrite (time_sleep_seconds _ _ _ Hsecs). cbn. apply Forall_app; auto.
  - destruct (time_sleep_refuses _ Hsecs) as [e He]. by rewrite He.
Qed.

Lemma adds_only_fail_json {A} changed msg :
  adds_only P (@fail_json A changed msg).
Proof. by intros h Hh. Qed.

Lemma adds_only_exit_json {A} changed json :
  adds_only P (@exit_json A changed json).
Proof. intros h Hh. by rewrite exit_json_history. Qed.
End AddsOnly.

Lemma adds_only_poll remote fuel gp name poll_interval :
  ∀ json,
    adds_only global_region (poll remote fuel gp name poll_interval json).
Proof.
  induction fuel as [|fuel IH]; intros json; cbn [poll].
  { apply adds_only_lift. }
  apply adds_only_bind; [apply adds_only_lift|]. intros [|].
  - apply adds_only_bind; [by apply adds_only_execute|]. intros json'.
    apply adds_only_bind; [by apply adds_only_time_sleep|]. intros _.
    apply IH.
  - apply adds_only_ret.
Qed.

Lemma adds_only_converge remote fuel params gp :
  adds_only global_region (converge remote fuel params gp).
Proof.
  unfold converge. apply adds_only_bind.
  - destruct (in_strs _ ["present"; "active"]).
    + apply adds_only_try_except.
      * apply adds_only_bind; [by apply adds_only_execute|]. intros json.
        apply adds_only_ret.
      * intros e. destruct (is_HttpError e); [|apply adds_only_fail_json].
        apply adds_only_bind; [apply adds_only_lift|]. intros body.
        apply adds_only_bind; [by apply adds_only_execute|]. intros json.
        apply adds_only_bind; [|intros json'; apply adds_only_ret].
        destruct (truthy _); [apply adds_only_poll | apply adds_only_ret].
    + destruct (in_strs _ ["absent"; "deleted"]); [|apply adds_only_ret].
      apply adds_only_bind.
      * apply adds_only_try_except.
        -- apply adds_only_bind; [by apply adds_only_execute|]. intros json.
           apply adds_only_ret.
        -- intros e. destruct (is_HttpError e);
             [apply adds_only_ret | apply adds_only_fail_json].
      * intros [json|]; [|apply adds_only_ret].
        apply adds_only_bind; [by apply adds_only_execute|]. intros json'.
        apply adds_only_ret.
  - intros [json changed]. apply adds_only_exit_json.
Qed.

Lemma adds_only_reconcile remote fuel lib params environ :
  adds_only global_region (reconcile remote fuel lib params environ).
Proof.
  unfold reconcile. apply adds_only_bind.
  { destruct (negb lib); [apply adds_only_fail_json | apply adds_only_ret]. }
  intros _. apply adds_only_bind.
  { destruct (params_get params "zone"); try apply adds_only_lift.
    destruct (params_get params "region"); try apply adds_only_lift.
    destruct (negb _); [apply adds_only_fail_json | apply adds_only_ret]. }
  intros _.
  destruct (environ !! "GCE_EMAIL"); [|apply adds_only_fail_json].
  destruct (environ !! "GCE_PROJECT"); [|apply adds_only_fail_json].
  destruct (environ !! "GCE_CREDENTIALS_FILE_PATH");
    [|apply adds_only_fail_json].
  destruct (_ || _); [apply adds_only_fail_json|].
  apply adds_only_bind.
  { unfold google_auth. apply adds_only_try_except.
    - apply adds_only_bind; [by apply adds_only_execute|]. intros _.
      apply adds_only_ret.
    - intros e. apply adds_only_fail_json. }
  intros _. apply adds_only_bind; [by apply adds_only_execute|]. intros _.
  apply adds_only_converge.
Qed.

(** ** The region option *)

Lemma params_get_insert_ne params k k' v :
  k ≠ k' → params_get (<[k := v]> params) k' = params_get params k'.
Proof. intros Hk. unfold params_get. by rewrite lookup_insert_ne. Qed.

Lemma params_get_insert_eq params k v :
  params_get (<[k := v]> params) k = v.
Proof. unfold params_get. by rewrite lookup_insert_eq. Qed.

Lemma populate_request_body_insert_region params v name project region zone :
  populate_request_body (<["region" := v]> params) name project region zone
  = populate_request_body params name project region zone.
Proof.
  unfold populate_request_body. by rewrite !params_get_insert_ne by done.
Qed.

Lemma populate_request_body_region params name project region region' zone :
  truthy (params_get params "network") = false →
  truthy (params_get params "subnetwork") = false →
  populate_request_body params name project region zone
  = populate_request_body params name project region' zone.
Proof. intros Hn Hs. unfold populate_request_body. by rewrite Hn, Hs. Qed.

Lemma reconcile_region remote fuel lib params environ r1 r2 z :
  params_get params "zone" = VStr z →
  String.prefix r1 z = true → String.prefix r2 z = true →
  truthy (params_get params "network") = false →
  truthy (params_get params "subnetwork") = false →
  reconcile remote fuel lib (<["region" := VStr r1]> params) environ []
  = reconcile remote fuel lib (<["region" := VStr r2]> params) environ [].
Proof.
  intros Hz H1 H2 Hn Hs. unfold reconcile. cbv zeta.
  rewrite !params_get_insert_eq.
  rewrite !params_get_insert_ne by done.
  rewrite Hz, H1, H2.
  destruct (environ !! "GCE_EMAIL"); [|done].
  destruct (environ !! "GCE_PROJECT") as [gce_project|]; [|done].
  destruct (environ !! "GCE_CREDENTIALS_FILE_PATH"); [|done].
  destruct (_ || _); [done|].
  unfold converge. cbv zeta.
  rewrite !params_get_insert_eq, !populate_request_body_insert_region.
  rewrite !params_get_insert_ne by done.
  by rewrite (populate_request_body_region _ _ _ (VStr r1) (VStr r2)).
Qed.

(** ** After the create call *)

Lemma reconcile_created remote fuel params environ gp cred msg body json0 :
  prepared remote params environ gp cred →
  in_strs (params_get params "state") ["present"; "active"] = true →
  remote (h_setup cred) (clusters_get gp "global" (params_get params "name"))
  = Raises (HttpError msg) →
  populate_request_body params (params_get params "name") gp
    (params_get params "region") (params_get params "zone") = Ok body →
  remote (h_fetch cred gp (params_get params "name"))
    (clusters_create gp "global" body) = Returns json0 →
  reconcile remote fuel true params environ []
  = (json ← (if truthy (params_get params "sync") then
               poll remote fuel gp (params_get params "name")
                 (params_get params "poll_interval") json0
             else mret json0);
     exit_json true json) (h_create cred gp (params_get params "name") body).
Proof.
  intros Hprep Hstate Hget Hbody Hcreate.
  rewrite (reconcile_prepared _ _ _ _ _ _ Hprep).
  rewrite (converge_missing _ _ _ _ _ _ Hstate Hget).
  rewrite M_bind_unfold. unfold lift at 1. rewrite Hbody.
  rewrite M_bind_unfold. fold (h_fetch cred gp (params_get params "name")).
  by rewrite (execute_returns _ _ _ _ Hcreate).
Qed.

Lemma reconcile_create_raises remote fuel params environ gp cred msg body e :
  prepared remote params environ gp cred →
  in_strs (params_get params "state") ["present"; "active"] = true →
  remote (h_setup cred) (clusters_get gp "global" (params_get params "name"))
  = Raises (HttpError msg) →
  populate_request_body params (params_get params "name") gp
    (params_get params "region") (params_get params "zone") = Ok body →
  remote (h_fetch cred gp (params_get params "name"))
    (clusters_create gp "global" body) = Raises e →
  reconcile remote fuel true params environ []
  = (Raise e, h_create cred gp (params_get params "name") body).
Proof.
  intros Hprep Hstate Hget Hbody Hcreate.
  rewrite (reconcile_prepared _ _ _ _ _ _ Hprep).
  rewrite (converge_missing _ _ _ _ _ _ Hstate Hget).
  rewrite M_bind_unfold. unfold lift at 1. rewrite Hbody.
  rewrite M_bind_unfold. fold (h_fetch cred gp (params_get params "name")).
  by rewrite (execute_raises _ _ _ _ Hcreate).
Qed.

Lemma reconcile_populate_raises remote fuel params environ gp cred msg e :
  prepared remote params environ gp cred →
  in_strs (params_get params "state") ["present"; "active"] = true →
  remote (h_setup cred) (clusters_get gp "global" (params_get params "name"))
  = Raises (HttpError msg) →
  populate_request_body params (params_get params "name") gp
    (params_get params "region") (params_get params "zone") = Raise e →
  reconcile remote fuel true params environ []
  = (Raise e, h_fetch cred gp (params_get params "name")).
Proof.
  intros Hprep Hstate Hget Hbody.
  rewrite (reconcile_prepared _ _ _ _ _ _ Hprep).
  rewrite (converge_missing _ _ _ _ _ _ Hstate Hget).
  rewrite M_bind_unfold. unfold lift at 1. by rewrite Hbody.
Qed.

Lemma reconcile_delete_raises remote fuel params environ gp cred json e :
  prepared remote params environ gp cred →
  in_strs (params_get params "state") ["absent"; "deleted"] = true →
  remote (h_setup cred) (clusters_get gp "global" (params_get params "name"))
  = Returns json →
  remote (h_fetch cred gp (params_get params "name"))
    (clusters_delete gp "global" (params_get params "name")) = Raises e →
  reconcile remote fuel true params environ []
  = (Raise e,
     h_fetch cred gp (params_get params "name")
     ++ [clusters_delete gp "global" (params_get params "name")]).
Proof.
  intros Hprep Hstate Hget Hdel.
  rewrite (reconcile_prepared _ _ _ _ _ _ Hprep).
  rewrite (converge_absent_found _ _ _ _ _ _ Hstate Hget).
  rewrite M_bind_unfold. fold (h_fetch cred gp (params_get params "name")).
  by rewrite (execute_raises _ _ _ _ Hdel).
Qed.

(** Errors that do reach [fail_json]: the credentials, and a fetch that
    fails with something else than [HttpError]. *)
Lemma reconcile_auth_error remote fuel params environ z r email gp cred e :
  params_get params "zone" = VStr z →
  params_get params "region" = VStr r →
  String.prefix r z = true →
  environ !! "GCE_EMAIL" = Some email → email ≠ EmptyString →
  environ !! "GCE_PROJECT" = Some gp → gp ≠ EmptyString →
  environ !! "GCE_CREDENTIALS_FILE_PATH" = Some cred →
  cred ≠ EmptyString →
  remote [] (from_json_keyfile_name cred auth_scopes) = Raises e →
  reconcile remote fuel true params environ []
  = (FailJson (Some false) (msg_exn e),
     [from_json_keyfile_name cred auth_scopes]).
Proof.
  intros Hz Hr Hpre He Hne Hp Hnp Hc Hnc Ha.
  unfold reconcile. rewrite M_bind_unfold. cbn [negb mret M_mret M_ret].
  rewrite Hz, Hr, Hpre. cbn [negb]. rewrite M_bind_unfold.
  cbn [mret M_mret M_ret]. rewrite He, Hp, Hc.
  apply String.eqb_neq in Hne, Hnp, Hnc. rewrite Hne, Hnp, Hnc.
  cbn [orb]. rewrite M_bind_unfold.
  unfold google_auth, try_except. rewrite M_bind_unfold.
  by rewrite (execute_raises _ _ _ _ Ha).
Qed.

Lemma reconcile_fetch_error remote fuel params environ gp cred e :
  prepared remote params environ gp cred →
  in_strs (params_get params "state") ["present"; "active"] = true ∨
  in_strs (params_get params "state") ["absent"; "deleted"] = true →
  remote (h_setup cred) (clusters_get gp "global" (params_get params "name"))
  = Raises e →
  is_HttpError e = false →
  reconcile remote fuel true params environ []
  = (FailJson (Some false) (msg_str (str_exn e)),
     h_fetch cred gp (params_get params "name")).
Proof.
  intros Hprep Hstate Hget He.
  rewrite (reconcile_prepared _ _ _ _ _ _ Hprep).
  by rewrite (converge_fetch_error _ _ _ _ _ _ Hstate Hget He).
Qed.

Lemma creates_polls gp name (l : list call) :
  Forall (λ c, c = clusters_get gp "global" name ∨ ∃ s, c = sleep s) l →
  creates l = [].
Proof.
  induction 1 as [|c l [-> | [s ->]] _ IH]; [done|..]; cbn; exact IH.
Qed.

Lemma creates_app (h l : list call) : creates (h ++ l) = creates h ++ creates l.
Proof. apply List.filter_app. Qed.

(** ** The claims *)

Lemma demo_prepared s params :
  params_get params "zone" = VStr "us-central1-a" →
  params_get params "region" = VStr "us-central1" →
  prepared (world_of s) params demo_environ "proj" "/etc/key.json".
Proof.
  intros Hz Hr. split.
  - by exists "us-central1-a", "us-central1".
  - by exists "robot@example.com".
  - done.
  - done.
  - by exists ∅.
  - by exists ∅.
Qed.

Lemma set_params_dom check_type spec args params :
  set_params check_type spec args = Some params →
  ∀ k, k ∉ (fst <$> spec) → params !! k = None.
Proof.
  revert params. induction spec as [|[k0 a] spec IH]; intros params.
  - intros [= <-] k _. apply lookup_empty.
  - cbn [set_params].
    destruct (param_value check_type args k0 a) as [v|]; [|done].
    cbn. destruct (set_params check_type spec args) as [rest|]; [|done].
    cbn. intros [= <-] k Hk. cbn in Hk.
    apply not_elem_of_cons in Hk as [Hne Hk].
    rewrite lookup_insert_ne by done. by apply IH.
Qed.

Lemma demo_module_accepted :
  AnsibleModule check_type_id argument_spec mutually_exclusive
    {["name" := VStr "demo"]} = Ok demo_module_params.
Proof. reflexivity. Qed.

(** C1 (the code does not do this for scopes and metadata).  With a scope
    set, the run of the example issues no create call: the builder raises
    [KeyError('gceConfigCluster')] and the exception leaves [main].  For
    every task in which scopes and metadata are not set, the claim holds:
    when the first fetch raises [HttpError], the history has exactly one
    create call, its body is the one of the specification (mandatory
    fields, and the optional fields set to a non-empty value); a run that
    ends normally ends with [changed=true], and it does so once the create
    call has answered and, with [sync], the cluster is seen running. *)
Theorem create_when_missing :
  reconcile (world_of (missing (Some 0%nat))) 1 true scoped_params
    demo_environ []
  = (Raise (KeyError "gceConfigCluster"),
     h_fetch "/etc/key.json" "proj" (VStr "demo")) ∧
  ∀ remote fuel params environ gp cred msg,
    prepared remote params environ gp cred →
    in_strs (params_get params "state") ["present"; "active"] = true →
    let name := params_get params "name" in
    let sync := params_get params "sync" in
    let poll_interval := params_get params "poll_interval" in
    let body :=
      buildRequestBody params name gp (text (params_get params "region"))
        (text (params_get params "zone")) in
    let run := reconcile remote fuel true params environ [] in
    let h := h_create cred gp name body in
    remote (h_setup cred) (clusters_get gp "global" name)
    = Raises (HttpError msg) →
    truthy (params_get params "service_account_scopes") = false →
    truthy (params_get params "metadata") = false →
    str_or_none (params_get params "tags") →
    str_or_none (params_get params "network") →
    str_or_none (params_get params "subnetwork") →
    creates run.2 = [clusters_create gp "global" body] ∧
    (∀ changed json, run.1 = ExitJson changed json → changed = true) ∧
    (∀ json0,
       remote (h_fetch cred gp name) (clusters_create gp "global" body)
       = Returns json0 →
       (truthy sync = false → json0 !! "changed" = None →
        run = (ExitJson true json0, h)) ∧
       (truthy sync = true →
        ∀ secs n json,
          seconds poll_interval = Some secs →
          polled remote h gp name secs json0 n json →
          json !! "changed" = None →
          n < fuel →
          run = (ExitJson true json, h ++ polls gp name secs n))).
Proof.
  split; [reflexivity|].
  intros remote fuel params environ gp cred msg Hprep Hstate name sync
    poll_interval body run h Hget Hscopes Hmeta Htags Hnet Hsub.
  assert (populate_request_body params name gp (params_get params "region")
            (params_get params "zone") = Ok body) as Hbody.
  { destruct Hprep as [(z & r & Hz & Hr & _) _ _ _ _ _].
    subst body. rewrite Hz, Hr. by apply populate_request_body_ok. }
  destruct (remote (h_fetch cred gp name) (clusters_create gp "global" body))
    as [json0|e] eqn:Hcreate.
  - assert (run
            = (json ← (if truthy sync then
                         poll remote fuel gp name poll_interval json0
                       else mret json0);
               exit_json true json) h) as Hrun.
    { exact (reconcile_created remote fuel params environ gp cred msg body
               json0 Hprep Hstate Hget Hbody Hcreate). }
    split_and!.
    + rewrite Hrun, M_bind_unfold. destruct (truthy sync).
      * destruct (poll_history remote gp name poll_interval fuel json0 h)
          as (l & Hl & Hpolls).
        destruct (poll _ _ _ _ _ _ _) as [[j| | | |] h1]; cbn in Hl;
          subst h1; cbv beta iota; rewrite ?exit_json_history; cbn [snd];
          unfold creates; cbn [List.filter is_create]; f_equal;
          exact (creates_polls _ _ _ Hpolls).
      * cbn [mret M_mret M_ret]. by rewrite exit_json_history.
    + intros changed json. rewrite Hrun, M_bind_unfold.
      destruct (if truthy sync then _ else _) as [[j| | | |] h1] eqn:Hp;
        cbn [fst]; try done.
      * destruct (exit_json true j h1) as [r h2] eqn:Hexit. cbn.
        intros ->. by apply exit_json_changed in Hexit as (-> & _).
      * destruct (truthy sync); [by apply poll_no_exit in Hp | done].
    + intros ? [= <-]. split.
      * intros Hsync Hkey. rewrite Hrun, Hsync, M_bind_unfold.
        cbn [mret M_mret M_ret]. by rewrite exit_json_ok.
      * intros Hsync secs n json Hsecs Hpolled Hkey Hfuel.
        rewrite Hrun, Hsync, M_bind_unfold.
        rewrite (poll_reaches _ _ _ _ _ Hsecs n fuel h json0 json) by done.
        by rewrite exit_json_ok.
  - assert (run = (Raise e, h)) as ->.
    { exact (reconcile_create_raises remote fuel params environ gp cred msg
               body e Hprep Hstate Hget Hbody Hcreate). }
    split_and!; [done|done|]. intros ? [=].
Qed.

Lemma create_when_missing_witness :
  creates (reconcile (world_of (missing (Some 0%nat))) 1 true demo_params
             demo_environ []).2
  = [clusters_create "proj" "global" (demo_body demo_params)] ∧
  reconcile (world_of (missing (Some 0%nat))) 1 true demo_params
    demo_environ []
  = (ExitJson true operation_json,
     h_create "/etc/key.json" "proj" (VStr "demo") (demo_body demo_params)).
Proof.
  destruct (proj2 create_when_missing (world_of (missing (Some 0%nat))) 1
              demo_params demo_environ "proj" "/etc/key.json"
              "404 Not Found") as (Hone & _ & Hrun).
  - apply demo_prepared; reflexivity.
  - reflexivity.
  - reflexivity.
  - reflexivity.
  - reflexivity.
  - left. reflexivity.
  - left. reflexivity.
  - left. reflexivity.
  - split; [exact Hone|].
    apply (Hrun operation_json); reflexivity.
Defined.

(** C2 (the code does not do this).  An error of the create call, and an
    error of the delete call, leave [main] as the exception itself, with
    no [fail_json] result, no message field and no changed flag: the
    create call runs inside the handler of [HttpError] and the delete call
    in the [else] clause, where the clause [except Exception] of line 367
    (and of line 377) does not apply. *)
Theorem create_and_delete_errors_uncaught :
  (∀ remote fuel params environ gp cred msg body e,
     prepared remote params environ gp cred →
     in_strs (params_get params "state") ["present"; "active"] = true →
     remote (h_setup cred)
       (clusters_get gp "global" (params_get params "name"))
     = Raises (HttpError msg) →
     populate_request_body params (params_get params "name") gp
       (params_get params "region") (params_get params "zone") = Ok body →
     remote (h_fetch cred gp (params_get params "name"))
       (clusters_create gp "global" body) = Raises e →
     reconcile remote fuel true params environ []
     = (Raise e, h_create cred gp (params_get params "name") body)) ∧
  (∀ remote fuel params environ gp cred json e,
     prepared remote params environ gp cred →
     in_strs (params_get params "state") ["absent"; "deleted"] = true →
     remote (h_setup cred)
       (clusters_get gp "global" (params_get params "name"))
     = Returns json →
     remote (h_fetch cred gp (params_get params "name"))
       (clusters_delete gp "global" (params_get params "name")) = Raises e →
     reconcile remote fuel true params environ []
     = (Raise e,
        h_fetch cred gp (params_get params "name")
        ++ [clusters_delete gp "global" (params_get params "name")])).
Proof.
  split.
  - intros. by eapply reconcile_create_raises.
  - intros. by eapply reconcile_delete_raises.
Qed.

Lemma create_and_delete_errors_uncaught_witness :
  reconcile (world_of create_refused) 1 true demo_params demo_environ []
  = (Raise (HttpError "403 Quota exceeded"),
     h_create "/etc/key.json" "proj" (VStr "demo") (demo_body demo_params)) ∧
  reconcile (world_of delete_refused) 1 true
    (<["state" := VStr "absent"]> demo_params) demo_environ []
  = (Raise (HttpError "403 Forbidden"),
     h_fetch "/etc/key.json" "proj" (VStr "demo")
     ++ [clusters_delete "proj" "global" (VStr "demo")]).
Proof.
  destruct create_and_delete_errors_uncaught as [Hcreate Hdelete].
  split.
  - apply (Hcreate (world_of create_refused) 1 demo_params demo_environ
             "proj" "/etc/key.json" "404 Not Found" (demo_body demo_params)
             (HttpError "403 Quota exceeded")).
    + apply demo_prepared; reflexivity.
    + reflexivity.
    + reflexivity.
    + reflexivity.
    + reflexivity.
  - exact (Hdelete (world_of delete_refused) 1
             (<["state" := VStr "absent"]> demo_params) demo_environ
             "proj" "/etc/key.json" (cluster_json "RUNNING")
             (HttpError "403 Forbidden")
             (demo_prepared delete_refused
                (<["state" := VStr "absent"]> demo_params) eq_refl eq_refl)
             eq_refl eq_refl eq_refl).
Defined.

(** C3 (the code does not do this).  Whenever a scope or metadata is
    set, the builder returns no body at all.  At the task of the example
    with a scope, and with metadata, it raises
    [KeyError('gceConfigCluster')] (lines 278 and 282): the dictionary it
    built at line 244 is under the key [gceClusterConfig].  The body of
    the specification has both entries under the cluster's GCE config,
    the scope as its OAuth URI. *)
Theorem scopes_and_metadata_not_built :
  (∀ params name project region zone,
     truthy (params_get params "service_account_scopes") = true ∨
     truthy (params_get params "metadata") = true →
     ∀ body,
       populate_request_body params name project region zone ≠ Ok body) ∧
  populate_request_body scoped_params (VStr "demo") "proj"
    (VStr "us-central1") (VStr "us-central1-a")
  = Raise (KeyError "gceConfigCluster") ∧
  populate_request_body labelled_params (VStr "demo") "proj"
    (VStr "us-central1") (VStr "us-central1-a")
  = Raise (KeyError "gceConfigCluster") ∧
  lookup_at (demo_body scoped_params)
    ["config"; "gceClusterConfig"; "serviceAccountScopes"]
  = Some (VList [VStr "https://www.googleapis.com/auth/cloud-platform"]) ∧
  lookup_at (demo_body labelled_params)
    ["config"; "gceClusterConfig"; "metadata"]
  = Some (VDict {["team" := VStr "data"]}).
Proof.
  split_and!; try reflexivity.
  intros. by apply populate_request_body_scopes_metadata.
Qed.

Lemma scopes_and_metadata_not_built_witness :
  populate_request_body scoped_params (VStr "demo") "proj"
    (VStr "us-central1") (VStr "us-central1-a")
  ≠ Ok (demo_body scoped_params).
Proof.
  apply (proj1 scopes_and_metadata_not_built scoped_params).
  left. reflexivity.
Defined.



(** C5.  Desired state absent (or deleted).  When the first fetch finds
    the cluster, exactly one delete call is issued, and the run ends with
    [changed=true] once that call has answered.  When the fetch reports
    that the cluster does not exist, the run ends with [changed=false] and
    no delete call.  Whenever the fetch does not find the cluster, there
    is no delete call and the run does not end with [changed=true]. *)
Theorem absent_deletes_iff_found remote fuel params environ gp cred :
  prepared remote params environ gp cred →
  in_strs (params_get params "state") ["absent"; "deleted"] = true →
  let name := params_get params "name" in
  let run := reconcile remote fuel true params environ [] in
  let fetch := remote (h_setup cred) (clusters_get gp "global" name) in
  (∀ json, fetch = Returns json →
     deletes run.2 = [clusters_delete gp "global" name] ∧
     ∀ json',
       remote (h_fetch cred gp name) (clusters_delete gp "global" name)
       = Returns json' →
       json' !! "changed" = None →
       run = (ExitJson true json',
              h_fetch cred gp name ++ [clusters_delete gp "global" name])) ∧
  (∀ msg, fetch = Raises (HttpError msg) →
     run = (ExitJson false ∅, h_fetch cred gp name)) ∧
  (∀ e, fetch = Raises e →
     deletes run.2 = [] ∧ ∀ json, run.1 ≠ ExitJson true json).
Proof.
  intros Hprep Hstate name run fetch. subst run fetch.
  rewrite (reconcile_prepared _ _ _ _ _ _ Hprep).
  split_and!.
  - intros json Hget.
    rewrite (converge_absent_found _ _ _ _ _ _ Hstate Hget).
    rewrite M_bind_unfold. unfold execute. fold name.
    fold (h_fetch cred gp name).
    destruct (remote (h_fetch cred gp name) _) as [json'|e] eqn:Hdel.
    + rewrite exit_json_history. split; [done|].
      intros ? [= <-] Hkey. by rewrite exit_json_ok.
    + done.
  - intros msg Hget.
    by rewrite (converge_absent_missing _ _ _ _ _ _ Hstate Hget).
  - intros e Hget. destruct (is_HttpError e) eqn:He.
    + destruct e; try done.
      by rewrite (converge_absent_missing _ _ _ _ _ _ Hstate Hget).
    + by rewrite (converge_fetch_error _ _ _ _ _ _ (or_intror Hstate) Hget He).
Qed.

Lemma absent_deletes_iff_found_witness :
  deletes (reconcile (world_of existing) 1 true
             (<["state" := VStr "absent"]> demo_params) demo_environ []).2
  = [clusters_delete "proj" "global" (VStr "demo")] ∧
  reconcile (world_of existing) 1 true
    (<["state" := VStr "absent"]> demo_params) demo_environ []
  = (ExitJson true operation_json,
     h_fetch "/etc/key.json" "proj" (VStr "demo")
     ++ [clusters_delete "proj" "global" (VStr "demo")]).
Proof.
  destruct (absent_deletes_iff_found (world_of existing) 1
              (<["state" := VStr "absent"]> demo_params) demo_environ
              "proj" "/etc/key.json") as [Hfound _].
  - apply demo_prepared; reflexivity.
  - reflexivity.
  - destruct (Hfound (cluster_json "RUNNING")) as [Hdel Hrun];
      [reflexivity|].
    split; [exact Hdel|].
    apply (Hrun operation_json); reflexivity.
Defined.

(** C5 as the specification words it does not hold where the service
    refuses to delete: the fetch finds the cluster, one delete call is
    issued, and the run ends with the exception of that call, so no
    result says [changed=true]. *)
Lemma absent_deletes_iff_found_counterexample :
  world_of delete_refused (h_setup "/etc/key.json")
    (clusters_get "proj" "global" (VStr "demo"))
  = Returns (cluster_json "RUNNING") ∧
  deletes (reconcile (world_of delete_refused) 1 true
             (<["state" := VStr "absent"]> demo_params) demo_environ []).2
  = [clusters_delete "proj" "global" (VStr "demo")] ∧
  ¬ ∃ json,
      (reconcile (world_of delete_refused) 1 true
         (<["state" := VStr "absent"]> demo_params) demo_environ []).1
      = ExitJson true json.
Proof.
  split_and!; [reflexivity|reflexivity|].
  intros [json Hrun].
  change ((Raise (HttpError "403 Forbidden") : result Empty_set)
          = ExitJson true json) in Hrun.
  discriminate Hrun.
Qed.

(** C6.  Desired state present (or active) and the first fetch finds the
    cluster: the run ends with [changed=false] and the body that fetch
    returned, and its history holds the fetch and no create call. *)
Theorem present_found_unchanged remote fuel params environ gp cred json :
  prepared remote params environ gp cred →
  in_strs (params_get params "state") ["present"; "active"] = true →
  remote (h_setup cred) (clusters_get gp "global" (params_get params "name"))
  = Returns json →
  json !! "changed" = None →
  reconcile remote fuel true params environ []
  = (ExitJson false json, h_fetch cred gp (params_get params "name")) ∧
  creates (reconcile remote fuel true params environ []).2 = [].
Proof.
  intros Hprep Hstate Hget Hkey.
  rewrite (reconcile_prepared _ _ _ _ _ _ Hprep).
  rewrite (converge_found _ _ _ _ _ _ Hstate Hget).
  rewrite exit_json_ok by done. done.
Qed.

Lemma present_found_unchanged_witness :
  reconcile (world_of existing) 1 true demo_params demo_environ []
  = (ExitJson false (cluster_json "RUNNING"),
     h_fetch "/etc/key.json" "proj" (VStr "demo")) ∧
  creates (reconcile (world_of existing) 1 true demo_params demo_environ []).2
  = [].
Proof.
  apply (present_found_unchanged (world_of existing) 1 demo_params
           demo_environ "proj" "/etc/key.json" (cluster_json "RUNNING")).
  - apply demo_prepared; reflexivity.
  - reflexivity.
  - reflexivity.
  - reflexivity.
Defined.

(** C7.  When the zone does not start with the region, the run ends in
    [fail_json] with an empty history: no call has left the process.  (If
    the client library is missing, the failure is the one of line 320.) *)
Theorem zone_outside_region_fails remote fuel lib params environ z r :
  params_get params "zone" = VStr z →
  params_get params "region" = VStr r →
  String.prefix r z = false →
  reconcile remote fuel lib params environ []
  = (FailJson None
       (msg_str
          (if lib then "Region " +:+ r +:+ " must contain zone " +:+ z
           else "Please install google-api-python-client library")), []).
Proof.
  intros Hz Hr Hpre. unfold reconcile. rewrite M_bind_unfold.
  destruct lib; [|done]. cbn [negb mret M_mret M_ret].
  rewrite M_bind_unfold, Hz, Hr, Hpre. done.
Qed.

Lemma zone_outside_region_fails_witness :
  reconcile (world_of existing) 1 true
    (<["zone" := VStr "europe-west1-b"]> demo_params) demo_environ []
  = (FailJson None
       (msg_str "Region us-central1 must contain zone europe-west1-b"), []).
Proof.
  apply (zone_outside_region_fails (world_of existing) 1 true
           (<["zone" := VStr "europe-west1-b"]> demo_params) demo_environ
           "europe-west1-b" "us-central1"); reflexivity.
Defined.

(** C8.  When both [network] and [subnetwork] are set, the construction
    of the module ends the run in [fail_json] with an empty history. *)
Theorem network_and_subnetwork_rejected remote check_type fuel lib args
    environ :
  is_Some (args !! "network") →
  is_Some (args !! "subnetwork") →
  ∃ msg,
    main remote check_type fuel lib args environ []
    = (FailJson None (msg_str msg), []).
Proof.
  intros Hn Hs. unfold main. rewrite M_bind_unfold. unfold lift.
  unfold AnsibleModule.
  destruct (negb (bool_decide (dom args ⊆ _))); [by eexists|].
  unfold mutually_exclusive. cbn [existsb].
  rewrite filter_cons_True by done. rewrite filter_cons_True by done.
  cbn. by eexists.
Qed.

Lemma network_and_subnetwork_rejected_witness :
  ∃ msg,
    main (world_of (missing None)) check_type_id 1 true
      (<["network" := VStr "default"]>
         (<["subnetwork" := VStr "default"]> {["name" := VStr "demo"]}))
      demo_environ []
    = (FailJson None (msg_str msg), []).
Proof.
  apply (network_and_subnetwork_rejected (world_of (missing None))
           check_type_id 1 true
           (<["network" := VStr "default"]>
              (<["subnetwork" := VStr "default"]> {["name" := VStr "demo"]}))
           demo_environ).
  - eexists. reflexivity.
  - eexists. reflexivity.
Defined.

(** C10.  [tags] is not among the declared arguments; so in the
    [module.params] of every accepted task it is absent, the builder's
    [if tags:] is not taken, and the body the builder returns has no
    [tags] entry under the cluster's GCE config. *)
Theorem tags_unreachable check_type args params :
  AnsibleModule check_type argument_spec mutually_exclusive args = Ok params →
  ("tags" ∉ fst <$> argument_spec) ∧
  params !! "tags" = None ∧
  truthy (params_get params "tags") = false ∧
  ∀ name project region zone body,
    populate_request_body params name project region zone = Ok body →
    lookup_at body ["config"; "gceClusterConfig"; "tags"] = None.
Proof.
  intros Hmod.
  assert ("tags" ∉ fst <$> argument_spec) as Hdecl.
  { cbn. rewrite !not_elem_of_cons. split_and!; try done.
    apply not_elem_of_nil. }
  assert (params !! "tags" = None) as Hnone.
  { unfold AnsibleModule in Hmod.
    repeat (match type of Hmod with
            | context [if ?b then _ else _] => destruct b; [done|]
            end).
    destruct (set_params _ _ _) as [p|] eqn:Hset; [|done].
    injection Hmod as <-. by eapply set_params_dom. }
  assert (truthy (params_get params "tags") = false) as Hfalsy.
  { unfold params_get. by rewrite Hnone. }
  split_and!; [done..|].
  intros name project region zone body.
  by apply populate_request_body_no_tags.
Qed.

Lemma tags_unreachable_witness :
  ("tags" ∉ fst <$> argument_spec) ∧ demo_module_params !! "tags" = None.
Proof.
  pose proof (tags_unreachable check_type_id {["name" := VStr "demo"]}
                demo_module_params demo_module_accepted) as (H1 & H2 & _).
  exact (conj H1 H2).
Defined.

(** * Further properties of the code *)

(** ** Strings: [split], [join] and prefixes *)

Lemma split_nonempty sep s : split sep s ≠ [].
Proof.
  destruct s as [|c r]; cbn; [done|].
  destruct (Ascii.eqb c sep); [done|]. by destruct (split sep r).
Qed.

Lemma concat_split sep s :
  String.concat (String sep EmptyString) (split sep s) = s.
Proof.
  induction s as [|c r IH]; [done|]. cbn [split].
  destruct (Ascii.eqb c sep) eqn:Hc.
  - apply Ascii.eqb_eq in Hc as ->.
    pose proof (split_nonempty sep r) as Hne.
    destruct (split sep r) as [|p l]; [done|].
    change (String.concat (String sep EmptyString) (EmptyString :: p :: l))
      with (String sep (String.concat (String sep EmptyString) (p :: l))).
    by rewrite IH.
  - pose proof (split_nonempty sep r) as Hne.
    destruct (split sep r) as [|p l]; [done|].
    destruct l as [|q l]; [cbn in IH |- *; by rewrite IH|].
    change (String.concat (String sep EmptyString) (String c p :: q :: l))
      with (String c (String.concat (String sep EmptyString) (p :: q :: l))).
    by rewrite IH.
Qed.

Lemma split_free_of sep s : Forall (free_of sep) (split sep s).
Proof.
  induction s as [|c r IH]; cbn [split].
  - constructor; [|done]. unfold free_of. cbn. apply not_elem_of_nil.
  - destruct (Ascii.eqb c sep) eqn:Hc.
    + constructor; [|done]. unfold free_of. cbn. apply not_elem_of_nil.
    + pose proof (split_nonempty sep r) as Hne.
      destruct (split sep r) as [|p l]; [done|].
      apply Forall_cons in IH as [Hp Hl]. constructor; [|done].
      unfold free_of in *. cbn. apply not_elem_of_cons. split; [|done].
      intros ->. by rewrite Ascii.eqb_refl in Hc.
Qed.

Lemma prefix_append s t : String.prefix s (s +:+ t) = true.
Proof.
  induction s as [|c s IH]; simpl; [by destruct t|].
  destruct (ascii_dec c c); [done|congruence].
Qed.

(** ** [generate_resource_uri] *)

Lemma as_strs_Ok args segs :
  as_strs args = Ok segs → args = VStr <$> segs.
Proof.
  revert segs. induction args as [|v args IH]; intros segs; cbn.
  - by intros [= <-].
  - destruct v; cbn; try done.
    destruct (as_strs args) as [l| | | |]; cbn; try done.
    intros [= <-]. cbn. by rewrite (IH l).
Qed.

Lemma as_strs_not_str args v :
  v ∈ args → is_str v = false →
  as_strs args = Raise (TypeError "expected string").
Proof.
  induction args as [|w args IH]; [by intros ?%elem_of_nil|].
  intros [-> | Hin]%elem_of_cons Hv; cbn.
  - by destruct w.
  - destruct w; cbn; try done. by rewrite IH.
Qed.

(** X1.  [generate_resource_uri] returns exactly when every argument
    after the project is a string, and raises [TypeError] otherwise; what
    it returns is the base URI of the project followed by the arguments
    joined with slashes, so it starts with that base URI. *)
Theorem generate_resource_uri_strings project args :
  (∀ uri,
     generate_resource_uri project args = Ok uri →
     ∃ segments,
       args = VStr <$> segments ∧
       uri = google_base_uri project +:+ String.concat "/" segments ∧
       String.prefix (google_base_uri project) uri = true) ∧
  (∀ segments,
     args = VStr <$> segments →
     generate_resource_uri project args
     = Ok (google_base_uri project +:+ String.concat "/" segments)) ∧
  (∀ v, v ∈ args → is_str v = false →
     ∃ msg, generate_resource_uri project args = Raise (TypeError msg)).
Proof.
  split_and!.
  - intros uri. unfold generate_resource_uri.
    destruct (as_strs args) as [segments| | | |] eqn:Hs; cbn; try done.
    intros [= <-]. exists segments. split_and!; [|done|].
    + by apply as_strs_Ok.
    + apply prefix_append.
  - intros segments ->. apply generate_resource_uri_strs.
  - intros v Hin Hv. unfold generate_resource_uri.
    rewrite (as_strs_not_str _ _ Hin Hv). by eexists.
Qed.

Lemma generate_resource_uri_strings_witness :
  generate_resource_uri "proj" [VStr "regions"; VStr "us-central1"; VStr "net"]
  = Ok ("https://www.googleapis.com/compute/v1/projects/proj/"
        +:+ "regions/us-central1/net") ∧
  ∃ msg,
    generate_resource_uri "proj" [VStr "zones"; VNone]
    = Raise (TypeError msg).
Proof.
  split.
  - apply (proj1 (proj2 (generate_resource_uri_strings "proj"
             [VStr "regions"; VStr "us-central1"; VStr "net"]))
             ["regions"; "us-central1"; "net"]).
    reflexivity.
  - apply (proj2 (proj2 (generate_resource_uri_strings "proj"
             [VStr "zones"; VNone])) VNone).
    + apply list_elem_of_further, list_elem_of_here.
    + reflexivity.
Defined.

(** ** The builder on arbitrary options *)

Lemma is_str_text v : is_str v = true → v = VStr (text v).
Proof. by destruct v. Qed.

Lemma step_tags_if_set tags name project gce config :
  str_if_set tags = true →
  (if truthy tags then
     l ← str_split_comma tags;
     setitem_at (mk_body name project gce config)
       ["config"; "gceClusterConfig"] "tags" l
   else Ok (mk_body name project gce config))
  = Ok (mk_body name project
          (insert_if (truthy tags) "tags"
             (VList (VStr <$> split "," (text tags))) gce) config).
Proof.
  unfold str_if_set. destruct (truthy tags) eqn:Ht; [|done].
  intros ->%is_str_text. cbn [str_split_comma text]. rewrite bind_Ok.
  apply setitem_at_gce.
Qed.

Lemma step_uri_if_set net k name project region gce config :
  str_if_set net = true →
  negb (truthy net) || is_str region = true →
  (if truthy net then
     uri ← generate_resource_uri project [VStr "regions"; region; net];
     setitem_at (mk_body name project gce config)
       ["config"; "gceClusterConfig"] k (VStr uri)
   else Ok (mk_body name project gce config))
  = Ok (mk_body name project
          (insert_if (truthy net) k
             (VStr (resource_uri project
                      ["regions"; text region; text net])) gce)
          config).
Proof.
  unfold str_if_set. destruct (truthy net) eqn:Ht; [|done].
  intros Hn%is_str_text Hr%is_str_text. rewrite Hn at 1. rewrite Hr at 1.
  rewrite (generate_resource_uri_strs project
             ["regions"; text region; text net]
           : generate_resource_uri project
               [VStr "regions"; VStr (text region); VStr (text net)] = _),
    bind_Ok.
  apply setitem_at_gce.
Qed.

Lemma buildable_true params region zone :
  buildable params region zone = true →
  is_str zone = true ∧
  str_if_set (params_get params "tags") = true ∧
  str_if_set (params_get params "network") = true ∧
  str_if_set (params_get params "subnetwork") = true ∧
  negb (truthy (params_get params "network")) || is_str region = true ∧
  negb (truthy (params_get params "subnetwork")) || is_str region = true ∧
  truthy (params_get params "service_account_scopes") = false ∧
  truthy (params_get params "metadata") = false.
Proof.
  unfold buildable. rewrite !andb_true_iff, !negb_true_iff.
  intros ((((((Hz & Ht) & Hn) & Hs) & Hr) & Hsc) & Hm).
  split_and!; try done.
  - destruct (truthy (params_get params "network")); [|done].
    by destruct (is_str region).
  - destruct (truthy (params_get params "subnetwork")); [|done].
    destruct (truthy (params_get params "network")), (is_str region); done.
Qed.

Lemma populate_request_body_buildable params name project region zone :
  buildable params region zone = true →
  populate_request_body params name project region zone
  = Ok (buildRequestBody params name project (text region) (text zone)).
Proof.
  intros (Hz & Ht & Hn & Hs & Hrn & Hrs & Hscopes & Hmeta)%buildable_true.
  unfold populate_request_body.
  rewrite Hscopes, Hmeta. rewrite (is_str_text _ Hz) at 1.
  rewrite (generate_resource_uri_strs project ["zones"; text zone]
           : generate_resource_uri project
               [VStr "zones"; VStr (text zone)] = _), bind_Ok.
  change (VDict (<["clusterName" := name]> _))
    with (mk_body name project
            {["zoneUri" := VStr (resource_uri project ["zones"; text zone])]}
            ∅).
  rewrite step_software, bind_Ok.
  rewrite step_config, bind_Ok by done.
  rewrite step_tags_if_set, bind_Ok by done.
  do 2 (rewrite step_uri_if_set by done; rewrite bind_Ok).
  rewrite !bind_Ok.
  do 4 (rewrite step_config by done; rewrite bind_Ok).
  f_equal. unfold buildRequestBody.
  rewrite config_entries.
  rewrite (gce_entries _ _ _ _ _ _ _ _ _
             (VList ((λ scope, VStr (scope_prefix +:+ text scope))
                <$> elements_of (params_get params "service_account_scopes")))
             (params_get params "metadata") Hscopes Hmeta).
  reflexivity.
Qed.

Lemma str_if_set_false v :
  str_if_set v = false → truthy v = true ∧ is_str v = false.
Proof. unfold str_if_set. by destruct (truthy v), (is_str v). Qed.

Lemma iterate_pure v :
  (∃ l, iterate v = Ok l) ∨ (∃ e, iterate v = Raise e).
Proof. destruct v; cbn; eauto. Qed.

Lemma comprehension_scope_uri_pure l :
  (∃ uris, comprehension scope_uri l = Ok uris) ∨
  (∃ e, comprehension scope_uri l = Raise e).
Proof.
  induction l as [|v l IH]; cbn; [by eauto|].
  destruct v; cbn; eauto.
  destruct IH as [[uris ->] | [e ->]]; cbn; eauto.
Qed.

Lemma lookup_insert_if_ne (b : bool) k k' v (m : gmap string value) :
  k ≠ k' → insert_if b k v m !! k' = m !! k'.
Proof. intros Hk. destruct b; cbn; [by rewrite lookup_insert_ne|done]. Qed.

Lemma populate_request_body_unbuildable params name project region zone :
  buildable params region zone = false →
  ∃ e, populate_request_body params name project region zone = Raise e.
Proof.
  intros Hb. unfold populate_request_body.
  destruct zone as [| | |z| |]; try (by eexists).
  rewrite (generate_resource_uri_strs project ["zones"; z]
           : generate_resource_uri project [VStr "zones"; VStr z] = _),
    bind_Ok.
  change (VDict (<["clusterName" := name]> _))
    with (mk_body name project
            {["zoneUri" := VStr (resource_uri project ["zones"; z])]} ∅).
  rewrite step_software, bind_Ok.
  rewrite step_config, bind_Ok by done.
  (* tags *)
  destruct (str_if_set (params_get params "tags")) eqn:Ht; cycle 1.
  { apply str_if_set_false in Ht as [-> Ht].
    destruct (params_get params "tags"); try done; by eexists. }
  rewrite step_tags_if_set, bind_Ok by done.
  (* network *)
  destruct (str_if_set (params_get params "network")) eqn:Hn; cycle 1.
  { apply str_if_set_false in Hn as [-> Hn].
    destruct region; try (by eexists).
    destruct (params_get params "network"); try done; by eexists. }
  destruct (negb (truthy (params_get params "network")) || is_str region)
    eqn:Hrn; cycle 1.
  { apply orb_false_iff in Hrn as [->%negb_false_iff Hr].
    destruct region; try done; by eexists. }
  rewrite step_uri_if_set, bind_Ok by done.
  (* subnetwork *)
  destruct (str_if_set (params_get params "subnetwork")) eqn:Hs; cycle 1.
  { apply str_if_set_false in Hs as [-> Hs].
    destruct region; try (by eexists).
    destruct (params_get params "subnetwork"); try done; by eexists. }
  destruct (negb (truthy (params_get params "subnetwork")) || is_str region)
    eqn:Hrs; cycle 1.
  { apply orb_false_iff in Hrs as [->%negb_false_iff Hr].
    destruct region; try done; by eexists. }
  rewrite step_uri_if_set, bind_Ok by done.
  (* scopes and metadata *)
  match goal with
  | |- context [mk_body name project ?g ?c] =>
      assert (c !! "gceConfigCluster" = None) as Hc
        by (by rewrite !lookup_insert_if_ne by done);
      generalize dependent c; generalize g
  end.
  intros gce config Hc.
  destruct (truthy (params_get params "service_account_scopes")) eqn:Hsc.
  { destruct (iterate_pure (params_get params "service_account_scopes"))
      as [[l ->] | [e ->]]; [rewrite bind_Ok | by eexists].
    destruct (comprehension_scope_uri_pure l) as [[uris ->] | [e ->]];
      [rewrite bind_Ok | by eexists].
    rewrite setitem_at_missing by done. by eexists. }
  rewrite bind_Ok.
  destruct (truthy (params_get params "metadata")) eqn:Hm.
  { rewrite setitem_at_missing by done. by eexists. }
  exfalso. unfold buildable in Hb.
  rewrite Ht, Hn, Hs, Hsc, Hm in Hb. cbn in Hb.
  rewrite !andb_true_r in Hb.
  destruct (truthy (params_get params "network")),
    (truthy (params_get params "subnetwork")), (is_str region); done.
Qed.

Lemma populate_request_body_Ok_inv params name project region zone body :
  populate_request_body params name project region zone = Ok body →
  buildable params region zone = true ∧
  body = buildRequestBody params name project (text region) (text zone).
Proof.
  intros Hbody. destruct (buildable params region zone) eqn:Hb.
  - split; [done|].
    rewrite (populate_request_body_buildable _ name project _ _ Hb) in Hbody.
    by injection Hbody.
  - destruct (populate_request_body_unbuildable _ name project _ _ Hb)
      as [e He]. congruence.
Qed.

Lemma lookup_config params name project region zone key :
  key ≠ "gceClusterConfig" →
  lookup_at (buildRequestBody params name project region zone)
    ["config"; key]
  = (list_to_map
      (optional "softwareConfig" (params_get params "image_version")
         (VDict {["imageVersion" := params_get params "image_version"]})
       ++ optional "configBucket" (params_get params "bucket")
            (params_get params "bucket")
       ++ optional "initializationActions" (params_get params "init_actions")
            (params_get params "init_actions")
       ++ optional "masterConfig" (params_get params "master_config")
            (params_get params "master_config")
       ++ optional "workerConfig" (params_get params "worker_config")
            (params_get params "worker_config")
       ++ optional "secondaryWorkerConfig"
            (params_get params "second_worker_config")
            (params_get params "second_worker_config"))
     : gmap string value) !! key.
Proof.
  intros Hk. unfold buildRequestBody. cbn [lookup_at].
  rewrite !list_to_map_cons.
  rewrite lookup_insert_ne, lookup_insert_ne, lookup_insert_eq by done.
  cbn [mbind option_bind]. cbn [app]. rewrite list_to_map_cons.
  rewrite lookup_insert_ne by done.
  by destruct (_ !! key).
Qed.

Lemma lookup_gce params name project region zone key :
  lookup_at (buildRequestBody params name project region zone)
    ["config"; "gceClusterConfig"; key]
  = (list_to_map
      ([ ("zoneUri", VStr (resource_uri project ["zones"; zone])) ]
       ++ optional "tags" (params_get params "tags")
            (VList (VStr <$> split "," (text (params_get params "tags"))))
       ++ optional "networkUri" (params_get params "network")
            (VStr (resource_uri project
                     ["regions"; region; text (params_get params "network")]))
       ++ optional "subnetworkUri" (params_get params "subnetwork")
            (VStr (resource_uri project
                     ["regions"; region;
                      text (params_get params "subnetwork")]))
       ++ optional "serviceAccountScopes"
            (params_get params "service_account_scopes")
            (VList ((λ scope, VStr (scope_prefix +:+ text scope))
                      <$> elements_of
                            (params_get params "service_account_scopes")))
       ++ optional "metadata" (params_get params "metadata")
            (params_get params "metadata"))
     : gmap string value) !! key.
Proof.
  unfold buildRequestBody. cbn [lookup_at].
  rewrite !list_to_map_cons.
  rewrite lookup_insert_ne, lookup_insert_ne, lookup_insert_eq by done.
  cbn [mbind option_bind]. cbn [app]. rewrite !list_to_map_cons.
  rewrite lookup_insert_eq. cbn [mbind option_bind].
  by destruct (_ !! key).
Qed.

(** X2.  The builder returns a body exactly on the inputs described by
    [buildable], and the body is then the one of the specification; on
    every other input it raises. *)
Theorem builder_returns_iff_buildable params name project region zone :
  (buildable params region zone = true →
   populate_request_body params name project region zone
   = Ok (buildRequestBody params name project (text region) (text zone))) ∧
  (buildable params region zone = false →
   ∃ e, populate_request_body params name project region zone = Raise e).
Proof.
  split.
  - apply populate_request_body_buildable.
  - apply populate_request_body_unbuildable.
Qed.

Lemma builder_returns_iff_buildable_witness :
  populate_request_body tagged_params (VStr "demo") "proj"
    (VStr "us-central1") (VStr "us-central1-a")
  = Ok (demo_body tagged_params) ∧
  ∃ e,
    populate_request_body tagged_params (VStr "demo") "proj"
      (VInt 7) (VStr "us-central1-a") = Raise e.
Proof.
  split.
  - apply (proj1 (builder_returns_iff_buildable tagged_params (VStr "demo")
                    "proj" (VStr "us-central1") (VStr "us-central1-a"))).
    reflexivity.
  - apply (proj2 (builder_returns_iff_buildable tagged_params (VStr "demo")
                    "proj" (VInt 7) (VStr "us-central1-a"))).
    reflexivity.
Defined.

Lemma populate_request_body_insert_ne params k v name project region zone :
  k ∉ builder_options →
  populate_request_body (<[k := v]> params) name project region zone
  = populate_request_body params name project region zone.
Proof.
  intros Hk.
  assert (∀ k', k' ∈ builder_options →
            params_get (<[k := v]> params) k' = params_get params k') as Hget.
  { intros k' Hk'. apply params_get_insert_ne. by intros ->. }
  unfold populate_request_body.
  rewrite !Hget
    by (unfold builder_options;
        repeat first [apply list_elem_of_here | apply list_elem_of_further]).
  done.
Qed.

(** X3.  The builder reads [module.params] at the options of
    [builder_options] only: setting any other option leaves its result
    unchanged (name, region and zone reach it as arguments, not through
    [module.params]). *)
Theorem builder_reads_its_options params k v name project region zone :
  k ∉ builder_options →
  populate_request_body (<[k := v]> params) name project region zone
  = populate_request_body params name project region zone.
Proof. apply populate_request_body_insert_ne. Qed.

Lemma builder_reads_its_options_witness :
  populate_request_body (<["zone" := VStr "europe-west1-b"]> tagged_params)
    (VStr "demo") "proj" (VStr "us-central1") (VStr "us-central1-a")
  = populate_request_body tagged_params (VStr "demo") "proj"
      (VStr "us-central1") (VStr "us-central1-a").
Proof.
  apply (builder_reads_its_options tagged_params "zone").
  unfold builder_options. rewrite !not_elem_of_cons.
  split_and!; try done. apply not_elem_of_nil.
Defined.

(** X4.  With a zone that is a string, tags that are set and are not a
    string (a list of tags, say) make the builder raise
    [AttributeError]: line 260 calls [tags.split]. *)
Theorem tags_not_a_string_raise params name project region z :
  truthy (params_get params "tags") = true →
  is_str (params_get params "tags") = false →
  ∃ msg,
    populate_request_body params name project region (VStr z)
    = Raise (AttributeError msg).
Proof.
  intros Ht Hs. unfold populate_request_body.
  rewrite (generate_resource_uri_strs project ["zones"; z]
           : generate_resource_uri project [VStr "zones"; VStr z] = _),
    bind_Ok.
  change (VDict (<["clusterName" := name]> _))
    with (mk_body name project
            {["zoneUri" := VStr (resource_uri project ["zones"; z])]} ∅).
  rewrite step_software, bind_Ok.
  rewrite step_config, bind_Ok by done.
  rewrite Ht. destruct (params_get params "tags"); try done; by eexists.
Qed.

Lemma tags_not_a_string_raise_witness :
  ∃ msg,
    populate_request_body
      (<["tags" := VList [VStr "spark"; VStr "batch"]]> demo_params)
      (VStr "demo") "proj" (VStr "us-central1") (VStr "us-central1-a")
    = Raise (AttributeError msg).
Proof.
  apply (tags_not_a_string_raise
           (<["tags" := VList [VStr "spark"; VStr "batch"]]> demo_params));
    reflexivity.
Defined.

(** X5.  Every body the builder returns has the cluster name and the
    project id it was given at the top level, and under the cluster's GCE
    config the zone URI [<base>zones/<zone>]; the zone is then a string. *)
Theorem builder_mandatory_fields params name project region zone body :
  populate_request_body params name project region zone = Ok body →
  lookup_at body ["clusterName"] = Some name ∧
  lookup_at body ["projectId"] = Some (VStr project) ∧
  ∃ z, zone = VStr z ∧
       lookup_at body ["config"; "gceClusterConfig"; "zoneUri"]
       = Some (VStr (google_base_uri project +:+ "zones/" +:+ z)).
Proof.
  intros [Hb ->]%populate_request_body_Ok_inv.
  apply buildable_true in Hb as (Hz & _).
  split_and!.
  - unfold buildRequestBody. cbn [lookup_at].
    by rewrite list_to_map_cons, lookup_insert_eq.
  - unfold buildRequestBody. cbn [lookup_at].
    rewrite !list_to_map_cons.
    by rewrite lookup_insert_ne, lookup_insert_eq by done.
  - exists (text zone). split; [by apply is_str_text|].
    rewrite lookup_gce. cbn [app].
    by rewrite list_to_map_cons, lookup_insert_eq.
Qed.

Lemma builder_mandatory_fields_witness :
  lookup_at (demo_body tagged_params) ["clusterName"] = Some (VStr "demo") ∧
  lookup_at (demo_body tagged_params) ["projectId"] = Some (VStr "proj") ∧
  ∃ z, VStr "us-central1-a" = VStr z ∧
       lookup_at (demo_body tagged_params)
         ["config"; "gceClusterConfig"; "zoneUri"]
       = Some (VStr (google_base_uri "proj" +:+ "zones/" +:+ z)).
Proof.
  apply (builder_mandatory_fields tagged_params (VStr "demo") "proj"
           (VStr "us-central1") (VStr "us-central1-a")).
  reflexivity.
Defined.

Ltac pair_cases H :=
  repeat (apply elem_of_cons in H as [[= -> ->] | H]);
  [.. | by apply elem_of_nil in H].

(** X6.  In a body the builder returns, the tags entry is there exactly
    when tags are set; tags are then a string, and the entry is the list
    of its pieces between commas: joined with commas they give the
    string back, none of them has a comma, and there is at least one. *)
Theorem builder_tags params name project region zone body :
  populate_request_body params name project region zone = Ok body →
  let tags := params_get params "tags" in
  (truthy tags = false →
   lookup_at body ["config"; "gceClusterConfig"; "tags"] = None) ∧
  (truthy tags = true →
   ∃ s l, tags = VStr s ∧
          lookup_at body ["config"; "gceClusterConfig"; "tags"]
          = Some (VList (VStr <$> l)) ∧
          String.concat "," l = s ∧ Forall (free_of ",") l ∧ l ≠ []).
Proof.
  intros [Hb ->]%populate_request_body_Ok_inv tags.
  apply buildable_true in Hb as (_ & Hs & _ & _ & _ & _ & Hsc & Hm).
  rewrite lookup_gce. unfold optional. fold tags. rewrite Hsc, Hm.
  split; intros Ht; rewrite Ht.
  - by destruct (truthy (params_get params "network")),
      (truthy (params_get params "subnetwork")).
  - exists (text tags), (split "," (text tags)). split_and!.
    + apply is_str_text. unfold str_if_set in Hs. fold tags in Hs.
      by rewrite Ht in Hs.
    + by destruct (truthy (params_get params "network")),
        (truthy (params_get params "subnetwork")).
    + apply concat_split.
    + apply split_free_of.
    + apply split_nonempty.
Qed.

Lemma builder_tags_witness :
  ∃ s l, params_get tagged_params "tags" = VStr s ∧
         lookup_at (demo_body tagged_params)
           ["config"; "gceClusterConfig"; "tags"]
         = Some (VList (VStr <$> l)) ∧
         String.concat "," l = s ∧ Forall (free_of ",") l ∧ l ≠ [].
Proof.
  apply (builder_tags tagged_params (VStr "demo") "proj" (VStr "us-central1")
           (VStr "us-central1-a") (demo_body tagged_params));
    reflexivity.
Defined.

(** X7.  In a body the builder returns, the bucket, the initialization
    actions and the three instance configurations sit under their key of
    [config] as they were given when they are non-empty, and are left out
    otherwise; the image version, when non-empty, sits alone in a
    [softwareConfig] dictionary under [imageVersion]. *)
Theorem builder_copied_options params name project region zone body :
  populate_request_body params name project region zone = Ok body →
  (∀ opt key, (opt, key) ∈ copied_options →
     lookup_at body ["config"; key]
     = if truthy (params_get params opt) then Some (params_get params opt)
       else None) ∧
  lookup_at body ["config"; "softwareConfig"]
  = if truthy (params_get params "image_version")
    then Some (VDict {["imageVersion" := params_get params "image_version"]})
    else None.
Proof.
  intros [_ ->]%populate_request_body_Ok_inv. split.
  - intros opt key Hin. unfold copied_options in Hin. pair_cases Hin.
    all: rewrite lookup_config by done; unfold optional.
    all: destruct (truthy (params_get params "image_version")),
           (truthy (params_get params "bucket")),
           (truthy (params_get params "init_actions")),
           (truthy (params_get params "master_config")),
           (truthy (params_get params "worker_config")),
           (truthy (params_get params "second_worker_config"));
         reflexivity.
  - rewrite lookup_config by done. unfold optional.
    destruct (truthy (params_get params "image_version")),
      (truthy (params_get params "bucket")),
      (truthy (params_get params "init_actions")),
      (truthy (params_get params "master_config")),
      (truthy (params_get params "worker_config")),
      (truthy (params_get params "second_worker_config"));
      reflexivity.
Qed.

Lemma builder_copied_options_witness :
  lookup_at (demo_body tagged_params) ["config"; "configBucket"]
  = Some (VStr "staging") ∧
  lookup_at (demo_body tagged_params) ["config"; "masterConfig"] = None ∧
  lookup_at (demo_body tagged_params) ["config"; "softwareConfig"]
  = Some (VDict {["imageVersion" := VStr "1.1"]}).
Proof.
  destruct (builder_copied_options tagged_params (VStr "demo") "proj"
              (VStr "us-central1") (VStr "us-central1-a")
              (demo_body tagged_params) eq_refl) as [Hcopied Himage].
  split_and!.
  - apply (Hcopied "bucket" "configBucket"), list_elem_of_here.
  - apply (Hcopied "master_config" "masterConfig").
    do 2 apply list_elem_of_further. apply list_elem_of_here.
  - exact Himage.
Defined.

(** X8.  In a body the builder returns, a network (a subnetwork) that is
    set is a string, the region is a string too, and the entry is the URI
    [<base>regions/<region>/<network>]; one that is not set leaves no
    entry. *)
Theorem builder_network_uris params name project region zone body :
  populate_request_body params name project region zone = Ok body →
  ∀ opt key, (opt, key) ∈ uri_options →
    (truthy (params_get params opt) = false →
     lookup_at body ["config"; "gceClusterConfig"; key] = None) ∧
    (truthy (params_get params opt) = true →
     ∃ r n, region = VStr r ∧ params_get params opt = VStr n ∧
            lookup_at body ["config"; "gceClusterConfig"; key]
            = Some (VStr (google_base_uri project
                          +:+ "regions/" +:+ r +:+ "/" +:+ n))).
Proof.
  intros [Hb ->]%populate_request_body_Ok_inv opt key Hin.
  apply buildable_true in Hb as (_ & _ & Hn & Hs & Hrn & Hrs & Hsc & Hm).
  unfold uri_options in Hin. pair_cases Hin.
  all: rewrite lookup_gce; unfold optional; rewrite Hsc, Hm.
  all: split; intros Ht; rewrite Ht.
  1, 3: by destruct (truthy (params_get params "tags")),
          (truthy (params_get params "network")),
          (truthy (params_get params "subnetwork")).
  - unfold str_if_set in Hn. rewrite Ht in Hn, Hrn.
    exists (text region), (text (params_get params "network")).
    split_and!; [by apply is_str_text..|].
    by destruct (truthy (params_get params "tags")),
      (truthy (params_get params "subnetwork")).
  - unfold str_if_set in Hs. rewrite Ht in Hs, Hrs.
    exists (text region), (text (params_get params "subnetwork")).
    split_and!; [by apply is_str_text..|].
    by destruct (truthy (params_get params "tags")),
      (truthy (params_get params "network")).
Qed.

Lemma builder_network_uris_witness :
  ∃ r n, VStr "us-central1" = VStr r ∧
         params_get tagged_params "network" = VStr n ∧
         lookup_at (demo_body tagged_params)
           ["config"; "gceClusterConfig"; "networkUri"]
         = Some (VStr (google_base_uri "proj"
                       +:+ "regions/" +:+ r +:+ "/" +:+ n)).
Proof.
  apply (builder_network_uris tagged_params (VStr "demo") "proj"
           (VStr "us-central1") (VStr "us-central1-a")
           (demo_body tagged_params) eq_refl "network" "networkUri").
  - apply list_elem_of_here.
  - reflexivity.
Defined.

(** ** Runs that stop before the cluster endpoints *)

Lemma is_set_true environ k :
  is_set environ k = true →
  ∃ s, environ !! k = Some s ∧ (s =? EmptyString) = false.
Proof.
  unfold is_set. destruct (environ !! k) as [s|]; [|done].
  intros Hs%negb_true_iff. eauto.
Qed.

Lemma reconcile_configured remote fuel params environ gp cred :
  configured params environ gp cred →
  reconcile remote fuel true params environ []
  = (_ ← google_auth remote cred;
     _ ← execute remote (build "dataproc" "v1");
     converge remote fuel params gp) [].
Proof.
  intros [(z & r & Hz & Hr & Hpre) Henv Hp Hc].
  unfold env_complete in Henv.
  apply andb_true_iff in Henv as [[He Hp']%andb_true_iff Hc'].
  apply is_set_true in He as (e & He & Hne).
  apply is_set_true in Hp' as (p & Hp' & Hnp).
  apply is_set_true in Hc' as (c & Hc' & Hnc).
  rewrite Hp in Hp'. injection Hp' as <-.
  rewrite Hc in Hc'. injection Hc' as <-.
  unfold reconcile. rewrite M_bind_unfold. cbn [negb mret M_mret M_ret].
  rewrite Hz, Hr, Hpre. cbn [negb]. rewrite M_bind_unfold.
  cbn [mret M_mret M_ret]. rewrite He, Hp, Hc, Hne, Hnp, Hnc. done.
Qed.

Lemma demo_configured params :
  params_get params "zone" = VStr "us-central1-a" →
  params_get params "region" = VStr "us-central1" →
  configured params demo_environ "proj" "/etc/key.json".
Proof.
  intros Hz Hr. split; [|done..].
  by exists "us-central1-a", "us-central1".
Qed.

(** X9.  When the credentials cannot be loaded, whatever the exception,
    the run ends in [fail_json] with the exception as message and
    [changed=False]; the loading of the credentials is the only call made
    (line 218). *)
Theorem credentials_error_fails remote fuel params environ gp cred e :
  configured params environ gp cred →
  remote [] (from_json_keyfile_name cred auth_scopes) = Raises e →
  reconcile remote fuel true params environ []
  = (FailJson (Some false) (msg_exn e),
     [from_json_keyfile_name cred auth_scopes]).
Proof.
  intros Hconf Hauth. rewrite (reconcile_configured _ _ _ _ _ _ Hconf).
  rewrite M_bind_unfold. unfold google_auth, try_except.
  rewrite M_bind_unfold. by rewrite (execute_raises _ _ _ _ Hauth).
Qed.

Lemma credentials_error_fails_witness :
  reconcile
    (answering is_auth (Raises (Exception "No such file")) (world_of existing))
    1 true demo_params demo_environ []
  = (FailJson (Some false) (msg_exn (Exception "No such file")),
     [from_json_keyfile_name "/etc/key.json" auth_scopes]).
Proof.
  apply (credentials_error_fails _ 1 demo_params demo_environ "proj"
           "/etc/key.json" (Exception "No such file")).
  - apply demo_configured; reflexivity.
  - reflexivity.
Defined.

(** X10.  An exception of [build] (line 342) is not handled: it leaves
    [main], after the credentials were loaded and before any call on a
    cluster endpoint. *)
Theorem build_error_uncaught remote fuel params environ gp cred json e :
  configured params environ gp cred →
  remote [] (from_json_keyfile_name cred auth_scopes) = Returns json →
  remote [from_json_keyfile_name cred auth_scopes] (build "dataproc" "v1")
  = Raises e →
  reconcile remote fuel true params environ [] = (Raise e, h_setup cred).
Proof.
  intros Hconf Hauth Hbuild. rewrite (reconcile_configured _ _ _ _ _ _ Hconf).
  rewrite M_bind_unfold. unfold google_auth, try_except.
  rewrite M_bind_unfold, (execute_returns _ _ _ _ Hauth).
  cbn [mret M_mret M_ret]. rewrite M_bind_unfold. cbn [app].
  by rewrite (execute_raises _ _ _ _ Hbuild).
Qed.

Lemma build_error_uncaught_witness :
  reconcile
    (answering is_build (Raises (Exception "unknown api"))
       (world_of existing))
    1 true demo_params demo_environ []
  = (Raise (Exception "unknown api"), h_setup "/etc/key.json").
Proof.
  apply (build_error_uncaught _ 1 demo_params demo_environ "proj"
           "/etc/key.json" ∅ (Exception "unknown api")).
  - apply demo_configured; reflexivity.
  - reflexivity.
  - reflexivity.
Defined.

(** X11.  With the library there and the zone in the region, an
    environment in which one of GCE_EMAIL, GCE_PROJECT and
    GCE_CREDENTIALS_FILE_PATH is missing or empty ends the run in
    [fail_json] with [changed=False] and no call made (lines 335-339). *)
Theorem incomplete_environment_fails remote fuel params environ z r :
  params_get params "zone" = VStr z →
  params_get params "region" = VStr r →
  String.prefix r z = true →
  env_complete environ = false →
  reconcile remote fuel true params environ []
  = (FailJson (Some false) (msg_str env_message), []).
Proof.
  intros Hz Hr Hpre Henv.
  unfold reconcile. rewrite M_bind_unfold. cbn [negb mret M_mret M_ret].
  rewrite Hz, Hr, Hpre. cbn [negb]. rewrite M_bind_unfold.
  cbn [mret M_mret M_ret].
  unfold env_complete, is_set in Henv.
  destruct (environ !! "GCE_EMAIL") as [e|]; [|done].
  destruct (environ !! "GCE_PROJECT") as [p|]; [|done].
  destruct (environ !! "GCE_CREDENTIALS_FILE_PATH") as [c|]; [|done].
  destruct (e =? EmptyString), (p =? EmptyString), (c =? EmptyString); done.
Qed.

Lemma incomplete_environment_fails_witness :
  reconcile (world_of existing) 1 true demo_params
    (<["GCE_PROJECT" := EmptyString]> demo_environ) []
  = (FailJson (Some false) (msg_str env_message), []).
Proof.
  apply (incomplete_environment_fails (world_of existing) 1 demo_params
           (<["GCE_PROJECT" := EmptyString]> demo_environ)
           "us-central1-a" "us-central1"); reflexivity.
Defined.

(** ** Runs that reach the cluster endpoints *)

(** X12.  A state that is none of present, active, absent and deleted is
    not an error: after the credentials and [build] the run ends with
    [changed=False] and an empty body, without a call on a cluster
    endpoint (lines 345, 369 and 387). *)
Theorem unknown_state_does_nothing remote fuel params environ gp cred :
  prepared remote params environ gp cred →
  in_strs (params_get params "state")
    ["present"; "active"; "absent"; "deleted"] = false →
  reconcile remote fuel true params environ []
  = (ExitJson false ∅, h_setup cred).
Proof.
  intros Hprep Hstate.
  rewrite (reconcile_prepared _ _ _ _ _ _ Hprep).
  unfold in_strs in Hstate. cbn [existsb] in Hstate.
  rewrite !orb_false_iff in Hstate.
  destruct Hstate as (Hp & Ha & Hab & Hd & _).
  unfold converge. cbv zeta. rewrite M_bind_unfold.
  unfold in_strs. cbn [existsb]. rewrite Hp, Ha, Hab, Hd. done.
Qed.

Lemma unknown_state_does_nothing_witness :
  reconcile (world_of existing) 1 true
    (<["state" := VStr "stopped"]> demo_params) demo_environ []
  = (ExitJson false ∅, h_setup "/etc/key.json").
Proof.
  apply (unknown_state_does_nothing (world_of existing) 1
           (<["state" := VStr "stopped"]> demo_params) demo_environ "proj").
  - apply demo_prepared; reflexivity.
  - reflexivity.
Defined.

(** X13.  In both branches, a first fetch that raises something else than
    [HttpError] ends the run in [fail_json] with [changed=False] and the
    text of the exception as message; the fetch is the only call on a
    cluster endpoint (lines 367-368 and 377-378). *)
Theorem fetch_error_fails remote fuel params environ gp cred e :
  prepared remote params environ gp cred →
  in_strs (params_get params "state")
    ["present"; "active"; "absent"; "deleted"] = true →
  remote (h_setup cred) (clusters_get gp "global" (params_get params "name"))
  = Raises e →
  is_HttpError e = false →
  reconcile remote fuel true params environ []
  = (FailJson (Some false) (msg_str (str_exn e)),
     h_fetch cred gp (params_get params "name")).
Proof.
  intros Hprep Hstate Hget He.
  apply (reconcile_fetch_error _ _ _ _ _ _ _ Hprep); [|done..].
  unfold in_strs in *. cbn [existsb] in *.
  destruct (eq_str _ "present"), (eq_str _ "active"), (eq_str _ "absent"),
    (eq_str _ "deleted"); auto.
Qed.

Lemma fetch_error_fails_witness :
  reconcile
    (answering is_get (Raises (Exception "connection reset"))
       (world_of existing))
    1 true demo_params demo_environ []
  = (FailJson (Some false) (msg_str "connection reset"),
     h_fetch "/etc/key.json" "proj" (VStr "demo")).
Proof.
  apply (fetch_error_fails _ 1 demo_params demo_environ "proj"
           "/etc/key.json" (Exception "connection reset")).
  - split; [by exists "us-central1-a", "us-central1"
           | by exists "robot@example.com" | done | done
           | by exists ∅ | by exists ∅].
  - reflexivity.
  - reflexivity.
  - reflexivity.
Defined.

(** X14.  A body with a field named [changed] cannot be passed to
    [exit_json(changed=changed, **json)] (line 387): when the cluster is
    found and its body has such a field the run ends in [TypeError]
    instead of a result, and so does a run whose delete call answers with
    such a body, after the cluster was deleted. *)
Theorem changed_field_clashes remote fuel params environ gp cred json v :
  prepared remote params environ gp cred →
  remote (h_setup cred) (clusters_get gp "global" (params_get params "name"))
  = Returns json →
  (in_strs (params_get params "state") ["present"; "active"] = true →
   json !! "changed" = Some v →
   ∃ msg,
     reconcile remote fuel true params environ []
     = (Raise (TypeError msg), h_fetch cred gp (params_get params "name"))) ∧
  (in_strs (params_get params "state") ["absent"; "deleted"] = true →
   ∀ json',
     remote (h_fetch cred gp (params_get params "name"))
       (clusters_delete gp "global" (params_get params "name"))
     = Returns json' →
     json' !! "changed" = Some v →
     ∃ msg,
       reconcile remote fuel true params environ []
       = (Raise (TypeError msg),
          h_fetch cred gp (params_get params "name")
          ++ [clusters_delete gp "global" (params_get params "name")])).
Proof.
  intros Hprep Hget. rewrite (reconcile_prepared _ _ _ _ _ _ Hprep). split.
  - intros Hstate Hkey. rewrite (converge_found _ _ _ _ _ _ Hstate Hget).
    unfold exit_json. rewrite Hkey. by eexists.
  - intros Hstate json' Hdel Hkey.
    rewrite (converge_absent_found _ _ _ _ _ _ Hstate Hget).
    rewrite M_bind_unfold.
    fold (h_fetch cred gp (params_get params "name")).
    rewrite (execute_returns _ _ _ _ Hdel).
    unfold exit_json. rewrite Hkey. by eexists.
Qed.

Lemma changed_field_clashes_witness :
  ∃ msg,
    reconcile
      (answering is_get (Returns {["changed" := VBool true]})
         (world_of existing))
      1 true demo_params demo_environ []
    = (Raise (TypeError msg), h_fetch "/etc/key.json" "proj" (VStr "demo")).
Proof.
  apply (changed_field_clashes _ 1 demo_params demo_environ "proj"
           "/etc/key.json" {["changed" := VBool true]} (VBool true)).
  - split; [by exists "us-central1-a", "us-central1"
           | by exists "robot@example.com" | done | done
           | by exists ∅ | by exists ∅].
  - reflexivity.
  - reflexivity.
  - reflexivity.
Defined.

Lemma reconcile_insert_state remote fuel lib params environ v v' :
  in_strs v ["present"; "active"] = in_strs v' ["present"; "active"] →
  in_strs v ["absent"; "deleted"] = in_strs v' ["absent"; "deleted"] →
  reconcile remote fuel lib (<["state" := v]> params) environ []
  = reconcile remote fuel lib (<["state" := v']> params) environ [].
Proof.
  intros Hp Ha. unfold reconcile. cbv zeta.
  rewrite !params_get_insert_ne by done.
  destruct (environ !! "GCE_EMAIL"); [|done].
  destruct (environ !! "GCE_PROJECT") as [gce_project|]; [|done].
  destruct (environ !! "GCE_CREDENTIALS_FILE_PATH"); [|done].
  destruct (_ || _); [done|].
  unfold converge. cbv zeta.
  rewrite !params_get_insert_eq.
  rewrite !(populate_request_body_insert_ne params "state")
    by (unfold builder_options; rewrite !not_elem_of_cons;
        split_and!; try done; apply not_elem_of_nil).
  rewrite !params_get_insert_ne by done.
  by rewrite Hp, Ha.
Qed.

(** X15.  [active] is another name for [present] and [deleted] for
    [absent]: the runs are the same, call for call and result for
    result (lines 345 and 369). *)
Theorem state_aliases remote fuel lib params environ :
  reconcile remote fuel lib (<["state" := VStr "active"]> params) environ []
  = reconcile remote fuel lib (<["state" := VStr "present"]> params)
      environ [] ∧
  reconcile remote fuel lib (<["state" := VStr "deleted"]> params) environ []
  = reconcile remote fuel lib (<["state" := VStr "absent"]> params)
      environ [].
Proof. split; by apply reconcile_insert_state. Qed.

(** ** Failures inside the loop *)




(** X17.  With [sync], a create call that answers with a status that has
    no state makes the run end in [KeyError('state')] before any fetch of
    the loop (line 360 reads [json['status']['state']]). *)
Theorem status_without_state_raises remote fuel params environ gp cred msg
    body json0 d :
  prepared remote params environ gp cred →
  in_strs (params_get params "state") ["present"; "active"] = true →
  let name := params_get params "name" in
  remote (h_setup cred) (clusters_get gp "global" name)
  = Raises (HttpError msg) →
  populate_request_body params name gp (params_get params "region")
    (params_get params "zone") = Ok body →
  remote (h_fetch cred gp name) (clusters_create gp "global" body)
  = Returns json0 →
  truthy (params_get params "sync") = true →
  json0 !! "status" = Some (VDict d) →
  d !! "state" = None →
  0 < fuel →
  reconcile remote fuel true params environ []
  = (Raise (KeyError "state"), h_create cred gp name body).
Proof.
  intros Hprep Hstate name Hget Hbody Hcreate Hsync Hstatus Hd Hf.
  subst name.
  rewrite (reconcile_created remote fuel params environ gp cred msg body
             json0 Hprep Hstate Hget Hbody Hcreate).
  rewrite Hsync, M_bind_unfold.
  destruct fuel as [|fuel]; [lia|].
  cbn [poll]. rewrite M_bind_unfold. unfold lift at 1, not_running.
  rewrite Hstatus. cbn [getitem]. by rewrite Hd.
Qed.

Lemma status_without_state_raises_witness :
  reconcile (world_of stateless_status) 1 true sync_params demo_environ []
  = (Raise (KeyError "state"),
     h_create "/etc/key.json" "proj" (VStr "demo") (demo_body sync_params)).
Proof.
  apply (status_without_state_raises (world_of stateless_status) 1
           sync_params demo_environ "proj" "/etc/key.json" "404 Not Found"
           (demo_body sync_params) {["status" := VDict ∅]} ∅).
  - apply demo_prepared; reflexivity.
  - reflexivity.
  - reflexivity.
  - reflexivity.
  - reflexivity.
  - reflexivity.
  - reflexivity.
  - reflexivity.
  - lia.
Defined.

(** ** An interval [time.sleep] does not take *)




(** ** The calls of a run *)

Lemma deletes_polls gp name (l : list call) :
  Forall (λ c, c = clusters_get gp "global" name ∨ ∃ s, c = sleep s) l →
  deletes l = [].
Proof.
  induction 1 as [|c l [-> | [s ->]] _ IH]; [done|..]; cbn; exact IH.
Qed.

Lemma converge_history remote fuel params gp h :
  ∃ l,
    (converge remote fuel params gp h).2 = h ++ l ∧
    converge_trace gp (params_get params "name") l ∧
    (in_strs (params_get params "state") ["present"; "active"] = true →
     deletes l = []) ∧
    (in_strs (params_get params "state") ["present"; "active"] = false →
     creates l = []).
Proof.
  set (name := params_get params "name").
  assert (∃ l, h ++ [clusters_get gp "global" name] = h ++ l ∧
               converge_trace gp name l ∧ deletes l = [] ∧ creates l = [])
    as Hfetch.
  { eexists. split; [done|]. split_and!; [constructor|done..]. }
  unfold converge. cbv zeta. fold name. rewrite M_bind_unfold.
  destruct (in_strs (params_get params "state") ["present"; "active"])
    eqn:Hp.
  - unfold try_except. rewrite M_bind_unfold. unfold execute at 1.
    destruct (remote h (clusters_get gp "global" name)) as [json|e].
    { cbn [mret M_mret M_ret]. rewrite exit_json_history.
      destruct Hfetch as (l & ? & ? & ? & ?). exists l. by split_and!. }
    destruct (is_HttpError e);
      [|destruct Hfetch as (l & ? & ? & ? & ?); exists l; by split_and!].
    rewrite M_bind_unfold. unfold lift at 1.
    destruct (populate_request_body _ _ _ _ _) as [body| | | |];
      try (destruct Hfetch as (l & ? & ? & ? & ?); exists l; by split_and!).
    rewrite M_bind_unfold. unfold execute at 1.
    destruct (remote _ (clusters_create gp "global" body)) as [json|e'].
    2: { exists [clusters_get gp "global" name;
                 clusters_create gp "global" body].
         split_and!; [by rewrite <- app_assoc|by constructor|done|done]. }
    rewrite M_bind_unfold.
    assert (∃ r l,
              (if truthy (params_get params "sync") then
                 poll remote fuel gp name (params_get params "poll_interval")
                   json
               else mret json)
                ((h ++ [clusters_get gp "global" name])
                 ++ [clusters_create gp "global" body])
              = (r, ((h ++ [clusters_get gp "global" name])
                     ++ [clusters_create gp "global" body]) ++ l) ∧
              Forall (λ c, c = clusters_get gp "global" name
                           ∨ ∃ s, c = sleep s) l) as (r & l & -> & Hl).
    { destruct (truthy _).
      - destruct (poll_history remote gp name
                    (params_get params "poll_interval") fuel json
                    ((h ++ [clusters_get gp "global" name])
                     ++ [clusters_create gp "global" body]))
          as (l & Hl & Hf).
        destruct (poll _ _ _ _ _ _ _) as [r h']. cbn in Hl. subst h'.
        by exists r, l.
      - exists (Ok json), []. by rewrite app_nil_r. }
    exists (clusters_get gp "global" name
              :: clusters_create gp "global" body :: l).
    split_and!.
    + destruct r; rewrite ?M_bind_unfold; cbn [mret M_mret M_ret snd];
        rewrite ?exit_json_history; by rewrite <- !app_assoc.
    + by constructor.
    + intros _. cbn. by apply deletes_polls in Hl.
    + done.
  - destruct (in_strs (params_get params "state") ["absent"; "deleted"]).
    2: { cbn [mret M_mret M_ret]. rewrite exit_json_history.
         exists []. rewrite app_nil_r. split_and!; [done|constructor|done..]. }
    rewrite M_bind_unfold. unfold try_except. rewrite M_bind_unfold.
    unfold execute at 1.
    destruct (remote h (clusters_get gp "global" name)) as [json|e].
    + cbn [mret M_mret M_ret]. rewrite M_bind_unfold. unfold execute.
      exists [clusters_get gp "global" name;
              clusters_delete gp "global" name].
      split_and!; [|constructor|done|done].
      destruct (remote _ (clusters_delete gp "global" name));
        cbn [mret M_mret M_ret snd]; rewrite ?exit_json_history;
        by rewrite <- app_assoc.
    + destruct Hfetch as (l & ? & ? & ? & ?). exists l.
      destruct (is_HttpError e); cbn [mret M_mret M_ret];
        rewrite ?exit_json_history; by split_and!.
Qed.

Lemma reconcile_history remote fuel lib params environ :
  ∃ pre l gp,
    (reconcile remote fuel lib params environ []).2 = pre ++ l ∧
    Forall (λ c, is_auth c || is_build c = true) pre ∧
    converge_trace gp (params_get params "name") l ∧
    (in_strs (params_get params "state") ["present"; "active"] = true →
     deletes l = []) ∧
    (in_strs (params_get params "state") ["present"; "active"] = false →
     creates l = []).
Proof.
  assert (∀ pre, Forall (λ c, is_auth c || is_build c = true) pre →
            ∃ pre' l gp,
              pre = pre' ++ l ∧
              Forall (λ c, is_auth c || is_build c = true) pre' ∧
              converge_trace gp (params_get params "name") l ∧
              (in_strs (params_get params "state") ["present"; "active"]
               = true → deletes l = []) ∧
              (in_strs (params_get params "state") ["present"; "active"]
               = false → creates l = [])) as Hstop.
  { intros pre Hpre. exists pre, [], EmptyString. rewrite app_nil_r.
    split_and!; [done|done|constructor|done|done]. }
  unfold reconcile. rewrite M_bind_unfold.
  destruct lib; cbn [negb mret M_mret M_ret fail_json lift];
    [|by apply Hstop].
  rewrite M_bind_unfold.
  destruct (params_get params "zone") as [| | |z| |];
    try (by apply Hstop).
  destruct (params_get params "region") as [| | |r| |];
    try (by apply Hstop).
  destruct (negb (String.prefix r z)); [by apply Hstop|].
  cbn [mret M_mret M_ret].
  destruct (environ !! "GCE_EMAIL"); [|by apply Hstop].
  destruct (environ !! "GCE_PROJECT") as [gp|]; [|by apply Hstop].
  destruct (environ !! "GCE_CREDENTIALS_FILE_PATH") as [cred|];
    [|by apply Hstop].
  destruct (_ || _); [by apply Hstop|].
  rewrite M_bind_unfold. unfold google_auth, try_except.
  rewrite M_bind_unfold. unfold execute at 1.
  destruct (remote [] _) as [ja|e]; cbn [app mret M_mret M_ret];
    [|apply Hstop; by repeat constructor].
  rewrite M_bind_unfold. unfold execute at 1.
  destruct (remote _ (build "dataproc" "v1")) as [jb|e]; cbn [app];
    [|apply Hstop; by repeat constructor].
  destruct (converge_history remote fuel params gp
              [from_json_keyfile_name cred auth_scopes;
               build "dataproc" "v1"]) as (l & Hl & Htrace & Hd & Hc).
  exists [from_json_keyfile_name cred auth_scopes; build "dataproc" "v1"],
    l, gp.
  split_and!; [exact Hl|by repeat constructor|done..].
Qed.

Lemma setup_calls (P : call → bool) (pre : list call) :
  (∀ c, is_auth c || is_build c = true → P c = false) →
  Forall (λ c, is_auth c || is_build c = true) pre →
  List.filter P pre = [].
Proof.
  intros HP. induction 1 as [|c pre Hc _ IH]; [done|].
  cbn. by rewrite (HP c Hc).
Qed.

(** X18.  Whatever the inputs and the answers of the service, a run
    makes at most one create call and at most one delete call; it makes
    no delete call when the state is present or active and no create call
    otherwise; and its calls on the cluster endpoints, if any, begin with
    a fetch of the cluster on region "global". *)
Theorem calls_follow_state remote fuel lib params environ :
  let h := (reconcile remote fuel lib params environ []).2 in
  let present :=
    in_strs (params_get params "state") ["present"; "active"] in
  (length (creates h) ≤ 1)%nat ∧
  (length (deletes h) ≤ 1)%nat ∧
  (present = true → deletes h = []) ∧
  (present = false → creates h = []) ∧
  (cluster_calls h = [] ∨
   ∃ gp rest,
     cluster_calls h
     = clusters_get gp "global" (params_get params "name") :: rest).
Proof.
  intros h present. subst h present.
  destruct (reconcile_history remote fuel lib params environ)
    as (pre & l & gp & -> & Hpre & Htrace & Hd & Hc).
  unfold creates, deletes, cluster_calls. rewrite !List.filter_app.
  rewrite (setup_calls is_create pre), (setup_calls is_delete pre),
    (setup_calls (λ c, is_get c || is_create c || is_delete c) pre);
    try done; try (by intros []).
  cbn [app]. fold (creates l) (deletes l) (cluster_calls l).
  split_and!; [| |done|done|].
  - destruct Htrace as [|body l Hl| |]; cbn; try lia.
    change (List.filter is_create l) with (creates l).
    rewrite (creates_polls _ _ _ Hl). cbn. lia.
  - destruct Htrace as [|body l Hl| |]; cbn; try lia.
    change (List.filter is_delete l) with (deletes l).
    rewrite (deletes_polls _ _ _ Hl). cbn. lia.
  - destruct Htrace as [|body l Hl| |]; cbn; eauto.
Qed.

Lemma calls_follow_state_witness :
  deletes (reconcile (world_of (missing (Some 2%nat))) 4 true sync_params
             demo_environ []).2 = [] ∧
  creates (reconcile (world_of existing) 1 true
             (<["state" := VStr "absent"]> demo_params) demo_environ []).2
  = [].
Proof.
  split.
  - apply (calls_follow_state (world_of (missing (Some 2%nat))) 4 true
             sync_params demo_environ).
    reflexivity.
  - apply (calls_follow_state (world_of existing) 1 true
             (<["state" := VStr "absent"]> demo_params) demo_environ).
    reflexivity.
Defined.

(** ** The region option, with a network or a subnetwork *)

Lemma without_uris_body name project gce config :
  without_uris
    (VDict (list_to_map
       [ ("clusterName", name); ("projectId", project);
         ("config",
          VDict (list_to_map (("gceClusterConfig", VDict gce) :: config))) ]))
  = VDict (list_to_map
       [ ("clusterName", name); ("projectId", project);
         ("config",
          VDict (list_to_map
            (("gceClusterConfig",
              VDict (delete "networkUri" (delete "subnetworkUri" gce)))
             :: config))) ]).
Proof.
  unfold without_uris. cbn [update_key]. rewrite !list_to_map_cons.
  rewrite !alter_insert_ne by done.
  rewrite alter_insert_eq.
  cbn [update_key]. by rewrite alter_insert_eq.
Qed.

Lemma gce_without_uris (o1 o2 o3 o4 o5 z v1 n1 n2 s1 s2 v4 v5 : value) :
  delete "networkUri" (delete "subnetworkUri"
    (list_to_map
       (("zoneUri", z) :: optional "tags" o1 v1
        ++ optional "networkUri" o2 n1 ++ optional "subnetworkUri" o3 s1
        ++ optional "serviceAccountScopes" o4 v4 ++ optional "metadata" o5 v5)
     : gmap string value))
  = delete "networkUri" (delete "subnetworkUri"
      (list_to_map
         (("zoneUri", z) :: optional "tags" o1 v1
          ++ optional "networkUri" o2 n2 ++ optional "subnetworkUri" o3 s2
          ++ optional "serviceAccountScopes" o4 v4
          ++ optional "metadata" o5 v5))).
Proof.
  unfold optional.
  destruct (truthy o1), (truthy o2), (truthy o3), (truthy o4), (truthy o5);
    reflexivity.
Qed.

Lemma without_uris_region params name project r1 r2 zone :
  without_uris (buildRequestBody params name project r1 zone)
  = without_uris (buildRequestBody params name project r2 zone).
Proof.
  unfold buildRequestBody. cbn [app].
  rewrite !without_uris_body.
  erewrite gce_without_uris. reflexivity.
Qed.

Lemma buildable_region params r1 r2 zone :
  buildable params (VStr r1) zone = buildable params (VStr r2) zone.
Proof. reflexivity. Qed.

Lemma populate_request_body_raises_region params name project r1 r2 zone :
  buildable params (VStr r1) zone = false →
  ∃ e,
    populate_request_body params name project (VStr r1) zone = Raise e ∧
    populate_request_body params name project (VStr r2) zone = Raise e.
Proof.
  intros Hb. unfold populate_request_body.
  destruct zone as [| | |z| |]; try (by eexists).
  rewrite (generate_resource_uri_strs project ["zones"; z]
           : generate_resource_uri project [VStr "zones"; VStr z] = _),
    !bind_Ok.
  change (VDict (<["clusterName" := name]> _))
    with (mk_body name project
            {["zoneUri" := VStr (resource_uri project ["zones"; z])]} ∅).
  rewrite !step_software, !bind_Ok.
  rewrite !step_config, !bind_Ok by done.
  (* tags *)
  destruct (str_if_set (params_get params "tags")) eqn:Ht; cycle 1.
  { apply str_if_set_false in Ht as [-> Ht].
    destruct (params_get params "tags"); try done; by eexists. }
  rewrite !step_tags_if_set, !bind_Ok by done.
  (* network *)
  destruct (str_if_set (params_get params "network")) eqn:Hn; cycle 1.
  { apply str_if_set_false in Hn as [-> Hn].
    destruct (params_get params "network"); try done; by eexists. }
  rewrite (step_uri_if_set _ _ _ _ (VStr r1)),
    (step_uri_if_set _ _ _ _ (VStr r2)) by (done || apply orb_true_r).
  rewrite !bind_Ok.
  (* subnetwork *)
  destruct (str_if_set (params_get params "subnetwork")) eqn:Hs; cycle 1.
  { apply str_if_set_false in Hs as [-> Hs].
    destruct (params_get params "subnetwork"); try done; by eexists. }
  rewrite (step_uri_if_set _ _ _ _ (VStr r1)),
    (step_uri_if_set _ _ _ _ (VStr r2)) by (done || apply orb_true_r).
  rewrite !bind_Ok.
  (* scopes and metadata *)
  match goal with
  | |- context [mk_body name project _ ?c] =>
      assert (c !! "gceConfigCluster" = None) as Hc
        by (by rewrite !lookup_insert_if_ne by done);
      generalize dependent c
  end.
  intros config Hc.
  destruct (truthy (params_get params "service_account_scopes")) eqn:Hsc.
  { destruct (iterate_pure (params_get params "service_account_scopes"))
      as [[l ->] | [e ->]]; [rewrite !bind_Ok | by eexists].
    destruct (comprehension_scope_uri_pure l) as [[uris ->] | [e ->]];
      [rewrite !bind_Ok | by eexists].
    rewrite !setitem_at_missing by done. by eexists. }
  rewrite !bind_Ok.
  destruct (truthy (params_get params "metadata")) eqn:Hm.
  { rewrite !setitem_at_missing by done. by eexists. }
  exfalso. unfold buildable in Hb.
  rewrite Ht, Hn, Hs, Hsc, Hm in Hb. cbn in Hb.
  rewrite !andb_true_r in Hb.
  destruct (truthy (params_get params "network")),
    (truthy (params_get params "subnetwork")); done.
Qed.

(** The builder on two regions that are strings: the same exception, or
    two bodies that differ in the two URIs of the region at most. *)
Lemma populate_request_body_regions params name project r1 r2 zone :
  (∃ e,
     populate_request_body params name project (VStr r1) zone = Raise e ∧
     populate_request_body params name project (VStr r2) zone = Raise e) ∨
  (∃ body1 body2,
     populate_request_body params name project (VStr r1) zone = Ok body1 ∧
     populate_request_body params name project (VStr r2) zone = Ok body2 ∧
     without_uris body1 = without_uris body2).
Proof.
  destruct (buildable params (VStr r1) zone) eqn:Hb.
  - right. do 2 eexists. split_and!.
    + by apply populate_request_body_buildable.
    + by apply populate_request_body_buildable.
    + apply without_uris_region.
  - left. by apply populate_request_body_raises_region.
Qed.

(** ** A run read through a renaming of its calls *)

Section Simulates.
Context (f : call → call) (remote : world).

Lemma simulates_lift {A} (r : result A) : simulates f (lift r) (lift r).
Proof. by intros h. Qed.

Lemma simulates_ret {A} (a : A) : simulates f (mret a) (mret a).
Proof. by intros h. Qed.

Lemma simulates_bind {A B} (m1 m2 : M A) (k1 k2 : A → M B) :
  simulates f m1 m2 → (∀ a, simulates f (k1 a) (k2 a)) →
  simulates f (m1 ≫= k1) (m2 ≫= k2).
Proof.
  intros Hm Hk h. rewrite !M_bind_unfold, Hm.
  destruct (m2 h) as [[a|e|c j|c msg|] h']; cbn; try done.
  apply Hk.
Qed.

Lemma simulates_try_except {A} (m1 m2 : M A) (k1 k2 : exn → M A) :
  simulates f m1 m2 → (∀ e, simulates f (k1 e) (k2 e)) →
  simulates f (try_except m1 k1) (try_except m2 k2).
Proof.
  intros Hm Hk h. unfold try_except. rewrite Hm.
  destruct (m2 h) as [[a|e|c j|c msg|] h']; cbn; try done.
  apply Hk.
Qed.

Lemma simulates_execute c1 c2 :
  f c2 = c1 →
  simulates f (execute remote c1) (execute (through f remote) c2).
Proof.
  intros <- h. unfold execute, through.
  destruct (remote (f <$> h) (f c2)); cbn; by rewrite fmap_app.
Qed.

Lemma simulates_time_sleep v :
  (∀ secs, f (sleep secs) = sleep secs) →
  simulates f (time_sleep v) (time_sleep v).
Proof.
  intros Hf h. destruct (seconds v) as [secs|] eqn:Hsecs.
  - rewrite !(time_sleep_seconds _ _ _ Hsecs). cbn.
    rewrite fmap_app. cbn. by rewrite Hf.
  - destruct (time_sleep_refuses _ Hsecs) as [e He]. by rewrite !He.
Qed.

Lemma simulates_fail_json {A} changed msg :
  simulates f (@fail_json A changed msg) (fail_json changed msg).
Proof. by intros h. Qed.

Lemma simulates_exit_json {A} changed json :
  simulates f (@exit_json A changed json) (exit_json changed json).
Proof. unfold exit_json. destruct (json !! "changed"); apply simulates_lift. Qed.

Hypothesis f_get : ∀ p r n, f (clusters_get p r n) = clusters_get p r n.
Hypothesis f_sleep : ∀ secs, f (sleep secs) = sleep secs.

Lemma simulates_poll fuel gp name poll_interval :
  ∀ json,
    simulates f (poll remote fuel gp name poll_interval json)
      (poll (through f remote) fuel gp name poll_interval json).
Proof.
  induction fuel as [|fuel IH]; intros json; cbn [poll].
  { apply simulates_lift. }
  apply simulates_bind; [apply simulates_lift|]. intros [|].
  - apply simulates_bind; [by apply simulates_execute|]. intros json'.
    apply simulates_bind; [by apply simulates_time_sleep|]. intros _.
    apply IH.
  - apply simulates_ret.
Qed.
End Simulates.

Lemma simulates_converge remote fuel params gp r1 r2 :
  let body :=
    body_of (populate_request_body params (params_get params "name") gp
               (VStr r1) (params_get params "zone")) in
  simulates (with_body body)
    (converge remote fuel (<["region" := VStr r1]> params) gp)
    (converge (through (with_body body) remote) fuel
       (<["region" := VStr r2]> params) gp).
Proof.
  intros body. unfold converge. cbv zeta.
  rewrite !params_get_insert_eq, !populate_request_body_insert_region.
  rewrite !params_get_insert_ne by done.
  apply simulates_bind;
    [|intros [json changed]; apply simulates_exit_json].
  destruct (in_strs (params_get params "state") ["present"; "active"]).
  { apply simulates_try_except.
    { apply simulates_bind; [by apply simulates_execute|]. intros json.
      apply simulates_ret. }
    intros e. destruct (is_HttpError e); [|apply simulates_fail_json].
    subst body.
    destruct (populate_request_body_regions params
                (params_get params "name") gp r1 r2
                (params_get params "zone"))
      as [(e' & -> & ->) | (body1 & body2 & -> & -> & _)]; [by intros h|].
    cbn [body_of].
    match goal with
    | |- simulates ?f (lift (Ok _) ≫= ?k1) (lift (Ok _) ≫= ?k2) =>
        change (simulates f (k1 body1) (k2 body2))
    end.
    cbv beta.
    apply simulates_bind; [by apply simulates_execute|]. intros json.
    apply simulates_bind; [|intros json'; apply simulates_ret].
    destruct (truthy (params_get params "sync")).
    - by apply simulates_poll.
    - apply simulates_ret. }
  destruct (in_strs (params_get params "state") ["absent"; "deleted"]).
  { apply simulates_bind.
    { apply simulates_try_except.
      - apply simulates_bind; [by apply simulates_execute|]. intros json.
        apply simulates_ret.
      - intros e. destruct (is_HttpError e);
          [apply simulates_ret|apply simulates_fail_json]. }
    intros [json|]; [|apply simulates_ret].
    apply simulates_bind; [by apply simulates_execute|]. intros json'.
    apply simulates_ret. }
  apply simulates_ret.
Qed.

Lemma simulates_reconcile remote fuel lib params environ r1 r2 z :
  params_get params "zone" = VStr z →
  String.prefix r1 z = true → String.prefix r2 z = true →
  let body :=
    body_of (populate_request_body params (params_get params "name")
               (default EmptyString (environ !! "GCE_PROJECT"))
               (VStr r1) (VStr z)) in
  simulates (with_body body)
    (reconcile remote fuel lib (<["region" := VStr r1]> params) environ)
    (reconcile (through (with_body body) remote) fuel lib
       (<["region" := VStr r2]> params) environ).
Proof.
  intros Hz H1 H2 body. unfold reconcile. cbv zeta.
  rewrite !params_get_insert_eq.
  rewrite !params_get_insert_ne by done.
  rewrite Hz, H1, H2. cbn [negb].
  apply simulates_bind.
  { destruct lib; [apply simulates_ret|apply simulates_fail_json]. }
  intros _. apply simulates_bind; [apply simulates_ret|]. intros _.
  destruct (environ !! "GCE_EMAIL"); [|apply simulates_fail_json].
  subst body.
  destruct (environ !! "GCE_PROJECT") as [gce_project|];
    [|apply simulates_fail_json].
  destruct (environ !! "GCE_CREDENTIALS_FILE_PATH");
    [|apply simulates_fail_json].
  destruct (_ || _); [apply simulates_fail_json|].
  apply simulates_bind.
  { unfold google_auth. apply simulates_try_except.
    - apply simulates_bind; [by apply simulates_execute|]. intros _.
      apply simulates_ret.
    - intros e. apply simulates_fail_json. }
  intros _. apply simulates_bind; [by apply simulates_execute|]. intros _.
  cbn [default]. rewrite <- Hz. apply simulates_converge.
Qed.

(** C9.  Every call on a cluster endpoint in the history of a run names
    the region "global", whatever the [region] option is.  The option
    counts through the zone check and through the network and subnetwork
    URIs of the create body only.  Where neither network nor subnetwork
    is set, the builder does not look at it, and two runs that differ in
    a region the zone lies in are the same run.  Where they are set: on
    two regions the builder raises the same exception, or returns two
    bodies that are equal once the two URIs are taken out; and of two
    runs that differ in a region the zone lies in, the second, in front
    of a service that is shown the first run's body in place of the body
    of a create call, ends as the first does, having made call for call
    the calls of the first but for that body. *)
Theorem region_is_global_everywhere :
  (∀ remote fuel lib params environ,
     Forall global_region (reconcile remote fuel lib params environ []).2) ∧
  (∀ params name project region region' zone,
     truthy (params_get params "network") = false →
     truthy (params_get params "subnetwork") = false →
     populate_request_body params name project region zone
     = populate_request_body params name project region' zone) ∧
  (∀ remote fuel lib params environ r1 r2 z,
     params_get params "zone" = VStr z →
     String.prefix r1 z = true → String.prefix r2 z = true →
     truthy (params_get params "network") = false →
     truthy (params_get params "subnetwork") = false →
     reconcile remote fuel lib (<["region" := VStr r1]> params) environ []
     = reconcile remote fuel lib (<["region" := VStr r2]> params) environ []) ∧
  (∀ params name project r1 r2 zone,
     (∃ e,
        populate_request_body params name project (VStr r1) zone = Raise e ∧
        populate_request_body params name project (VStr r2) zone = Raise e) ∨
     (∃ body1 body2,
        populate_request_body params name project (VStr r1) zone = Ok body1 ∧
        populate_request_body params name project (VStr r2) zone = Ok body2 ∧
        without_uris body1 = without_uris body2)) ∧
  (∀ remote fuel lib params environ r1 r2 z,
     params_get params "zone" = VStr z →
     String.prefix r1 z = true → String.prefix r2 z = true →
     let body1 :=
       body_of (populate_request_body params (params_get params "name")
                  (default EmptyString (environ !! "GCE_PROJECT"))
                  (VStr r1) (VStr z)) in
     let run2 :=
       reconcile (through (with_body body1) remote) fuel lib
         (<["region" := VStr r2]> params) environ [] in
     reconcile remote fuel lib (<["region" := VStr r1]> params) environ []
     = (run2.1, with_body body1 <$> run2.2)).
Proof.
  split_and!.
  - intros. by apply adds_only_reconcile.
  - intros. by apply populate_request_body_region.
  - intros. by eapply reconcile_region.
  - intros. apply populate_request_body_regions.
  - intros remote fuel lib params environ r1 r2 z Hz H1 H2 body1 run2.
    exact (simulates_reconcile remote fuel lib params environ r1 r2 z
             Hz H1 H2 []).
Qed.

Lemma region_is_global_everywhere_witness :
  Forall global_region
    (reconcile (world_of (missing (Some 2%nat))) 4 true sync_params
       demo_environ []).2 ∧
  reconcile (world_of (missing None)) 1 true
    (<["region" := VStr "us-central1"]> demo_params) demo_environ []
  = reconcile (world_of (missing None)) 1 true
      (<["region" := VStr "us"]> demo_params) demo_environ [] ∧
  let body1 :=
    body_of (populate_request_body tagged_params (VStr "demo") "proj"
               (VStr "us-central1") (VStr "us-central1-a")) in
  let run2 :=
    reconcile (through (with_body body1) (world_of (missing None))) 1 true
      (<["region" := VStr "us"]> tagged_params) demo_environ [] in
  reconcile (world_of (missing None)) 1 true
    (<["region" := VStr "us-central1"]> tagged_params) demo_environ []
  = (run2.1, with_body body1 <$> run2.2).
Proof.
  destruct region_is_global_everywhere
    as (Hglobal & _ & Hregion & _ & Hnetwork).
  split_and!.
  - apply Hglobal.
  - apply (Hregion _ _ _ _ _ _ _ "us-central1-a"); reflexivity.
  - exact (Hnetwork (world_of (missing None)) 1 true tagged_params
             demo_environ "us-central1" "us" "us-central1-a"
             eq_refl eq_refl eq_refl).
Defined.
